(** * Vexa transcription service: the RunPod serverless handler

    A shallow embedding of [handler.py]: the audio resolver
    ([process_audio_input], [download_audio]), the transcription dispatcher
    ([WhisperTranscriber]) and the entry point ([handler]), together with the
    part of the Python runtime they rest on (dynamic values, exceptions,
    [base64.b64decode]).  Everything outside the process (HTTP, environment
    variables, the whisper library, the file system) is a [world] the
    definitions are parameterised by; every call that leaves the process is
    recorded in a trace of [event]s. *)

From Stdlib Require Import List String Ascii NArith ZArith Bool Lia.
From Stdlib Require Import Strings.Byte Numbers.DecimalString.
From Stdlib Require Import Floats.PrimFloat.
Import ListNotations.

Local Open Scope string_scope.
#[local] Set Warnings "-register-all".

(** ** Python values and exceptions *)

(** The values a job can carry: what [json.loads] produces, plus [bytes]
    (a caller inside the process may pass raw bytes).  A [str] is a sequence
    of code points; the ones from 128 on are the non-ASCII ones.  A [dict]
    keeps insertion order; its live binding for a key is the first one. *)
Inductive pyval : Type :=
| PNone : pyval
| PBool : bool -> pyval
| PInt : Z -> pyval
| PFloat : float -> pyval
| PStr : string -> pyval
| PBytes : list byte -> pyval
| PList : list pyval -> pyval
| PDict : list (string * pyval) -> pyval.

Definition pydict : Type := list (string * pyval).

(** [type(v).__name__] *)
Definition type_name (v : pyval) : string :=
  match v with
  | PNone => "NoneType"
  | PBool _ => "bool"
  | PInt _ => "int"
  | PFloat _ => "float"
  | PStr _ => "str"
  | PBytes _ => "bytes"
  | PList _ => "list"
  | PDict _ => "dict"
  end.

(** [bool(v)], as [if v:] tests it *)
Definition truthy (v : pyval) : bool :=
  match v with
  | PNone => false
  | PBool b => b
  | PInt z => negb (z =? 0)%Z
  | PFloat f => negb (PrimFloat.eqb f PrimFloat.zero)
  | PStr s => negb (s =? "")
  | PBytes b => negb (Nat.eqb (List.length b) 0)
  | PList l => negb (Nat.eqb (List.length l) 0)
  | PDict d => negb (Nat.eqb (List.length d) 0)
  end.

(** [k in d], [d.get(k)] and [d.get(k, default)] *)
Fixpoint dict_lookup (d : pydict) (k : string) : option pyval :=
  match d with
  | [] => None
  | (k', v) :: d' => if k' =? k then Some v else dict_lookup d' k
  end.

Definition dict_contains (d : pydict) (k : string) : bool :=
  match dict_lookup d k with Some _ => true | None => false end.

Definition dict_get (d : pydict) (k : string) (default : pyval) : pyval :=
  match dict_lookup d k with Some v => v | None => default end.

(** The exception classes the code raises or catches.  [HTTPError] stands for
    [httpx.HTTPError] and all its subclasses (status errors, transport errors,
    timeouts); [ValueError] includes [binascii.Error] and
    [json.JSONDecodeError]; [OtherError] is any other subclass of
    [Exception].  Only subclasses of [Exception] are modelled: the signals
    that derive from [BaseException] alone (interrupts, task cancellation)
    are not failures of a component. *)
Inductive exn_class : Type :=
| PlainException
| ValueError
| HTTPError
| ImportError
| AttributeError
| KeyError
| OtherError.

(** An exception: its class and [str(e)]. *)
Record exn : Type := mkExn { exn_type : exn_class; exn_str : string }.

Definition is_HTTPError (e : exn) : bool :=
  match exn_type e with HTTPError => true | _ => false end.

Definition is_ImportError (e : exn) : bool :=
  match exn_type e with ImportError => true | _ => false end.

(** [except Exception] *)
Definition is_Exception (e : exn) : bool := true.

(** ** base64 *)

Module Base64.

Local Open Scope N_scope.

Definition table_b2a_base64 : string :=
  "ABCDEFGHIJKLMNOPQRSTUVWXYZabcdefghijklmnopqrstuvwxyz0123456789+/".

Definition BASE64_PAD : N := 61.

Definition b2a (v : N) : ascii :=
  match String.get (N.to_nat v) table_b2a_base64 with
  | Some c => c
  | None => Ascii.zero
  end.

Fixpoint find_char (c : ascii) (s : string) (i : N) : N :=
  match s with
  | EmptyString => 255
  | String d s' => if (c =? d)%char then i else find_char c s' (i + 1)
  end.

(** The decoding table: the position of the character in the alphabet, 255
    (the [-1] of an [unsigned char]) for every other character. *)
Definition table_a2b_base64 (c : byte) : N :=
  find_char (ascii_of_byte c) table_b2a_base64 0.

(** Assignment to an [unsigned char] *)
Definition u8 (n : N) : byte :=
  match Byte.of_N (N.land n 255) with
  | Some b => b
  | None => x00
  end.

(** The standard base64 encoding (RFC 4648, section 4), what
    [base64.b64encode(b).decode()] yields: three bytes make four characters,
    a last group of one or two bytes is padded with [=]. *)
Fixpoint b64encode (b : list byte) : string :=
  match b with
  | [] => ""
  | [x] =>
      let x := Byte.to_N x in
      String (b2a (N.shiftr x 2))
        (String (b2a (N.shiftl (N.land x 3) 4)) "==")
  | [x; y] =>
      let x := Byte.to_N x in
      let y := Byte.to_N y in
      String (b2a (N.shiftr x 2))
        (String (b2a (N.lor (N.shiftl (N.land x 3) 4) (N.shiftr y 4)))
           (String (b2a (N.shiftl (N.land y 15) 2)) "="))
  | x :: y :: z :: rest =>
      let x := Byte.to_N x in
      let y := Byte.to_N y in
      let z := Byte.to_N z in
      String (b2a (N.shiftr x 2))
        (String (b2a (N.lor (N.shiftl (N.land x 3) 4) (N.shiftr y 4)))
           (String (b2a (N.lor (N.shiftl (N.land y 15) 2) (N.shiftr z 6)))
              (String (b2a (N.land z 63)) (b64encode rest))))
  end.

Definition odd_length_message (data_chars : N) : string :=
  "Invalid base64-encoded string: number of data characters ("
  ++ NilZero.string_of_uint (N.to_uint data_chars)
  ++ ") cannot be 1 more than a multiple of 4".

(** [binascii.a2b_base64] with [strict_mode] off, the decoder
    [base64.b64decode(s)] runs when [validate] is left at its default: the
    loop over the input with its three registers, [bin_data] being the bytes
    written so far.  A character outside the alphabet is skipped; a pad that
    completes a quad ends the decoding ([goto done]), any other pad is
    skipped; data characters left over in an open quad are an error. *)
Fixpoint a2b_loop (ascii_data : list byte) (quad_pos leftchar pads : N)
    (bin_data : list byte) : string + list byte :=
  match ascii_data with
  | [] =>
      if quad_pos =? 0 then inr bin_data
      else if quad_pos =? 1 then
        inl (odd_length_message (N.of_nat (List.length bin_data) / 3 * 4 + 1))
      else inl "Incorrect padding"
  | c :: rest =>
      if Byte.to_N c =? BASE64_PAD then
        if 2 <=? quad_pos then
          if 4 <=? quad_pos + (pads + 1) then inr bin_data
          else a2b_loop rest quad_pos leftchar (pads + 1) bin_data
        else a2b_loop rest quad_pos leftchar pads bin_data
      else
        let this_ch := table_a2b_base64 c in
        if 64 <=? this_ch then a2b_loop rest quad_pos leftchar pads bin_data
        else
          match quad_pos with
          | 0 => a2b_loop rest 1 this_ch 0 bin_data
          | 1 =>
              a2b_loop rest 2 (N.land this_ch 15) 0
                (bin_data ++ [u8 (N.lor (N.shiftl leftchar 2) (N.shiftr this_ch 4))])
          | 2 =>
              a2b_loop rest 3 (N.land this_ch 3) 0
                (bin_data ++ [u8 (N.lor (N.shiftl leftchar 4) (N.shiftr this_ch 2))])
          | _ =>
              a2b_loop rest 0 0 0
                (bin_data ++ [u8 (N.lor (N.shiftl leftchar 6) this_ch)])
          end
  end.

Definition a2b_base64 (data : list byte) : string + list byte :=
  a2b_loop data 0 0 0 [].

(** [s.encode('ascii')]: [None] stands for [UnicodeEncodeError]. *)
Fixpoint encode_ascii (s : string) : option (list byte) :=
  match s with
  | EmptyString => Some []
  | String c s' =>
      if N_of_ascii c <? 128 then
        match encode_ascii s' with
        | Some bs => Some (byte_of_ascii c :: bs)
        | None => None
        end
      else None
  end.

(** [base64.b64decode(s)] for a [str] argument, [altchars] and [validate]
    left at their defaults. *)
Definition b64decode (s : string) : exn + list byte :=
  match encode_ascii s with
  | None =>
      inl (mkExn ValueError
             "string argument should contain only ASCII characters")
  | Some data =>
      match a2b_base64 data with
      | inl msg => inl (mkExn ValueError msg)
      | inr bin => inr bin
      end
  end.

(** What the interface calls valid standard base64: characters of the
    alphabet, closed by at most two pads, four characters to a group. *)
Definition in_alphabet (c : ascii) : bool :=
  find_char c table_b2a_base64 0 <? 64.

Fixpoint alphabet_then_pads (s : string) : bool :=
  match s with
  | EmptyString => true
  | String c s' =>
      if in_alphabet c then alphabet_then_pads s'
      else ((s =? "=") || (s =? "=="))%string
  end.

Definition is_standard_base64 (s : string) : bool :=
  alphabet_then_pads s && (Nat.eqb (Nat.modulo (String.length s) 4) 0).

(** The sextets of a group, and the checks on characters and bytes that the
    proofs below run over the whole range. *)
Definition sextet1 (x y : N) : N := N.lor (N.shiftl (N.land x 3) 4) (N.shiftr y 4).
Definition sextet2 (y z : N) : N := N.lor (N.shiftl (N.land y 15) 2) (N.shiftr z 6).

(** The character of a sextet is ASCII, is not the pad, and the decoding
    table sends it back to the sextet. *)
Definition char_ok (v : N) : bool :=
  let c := b2a v in
  (N_of_ascii c <? 128)
  && negb (Byte.to_N (byte_of_ascii c) =? BASE64_PAD)
  && (table_a2b_base64 (byte_of_ascii c) =? v)
  && in_alphabet c.

Definition byte_ok (x : N) : bool :=
  (N.shiftr x 2 <? 64) && (N.land x 63 <? 64)
  && (N.land (N.lor (N.shiftl (N.shiftr x 2) 2) (N.land x 3)) 255 =? x)
  && (N.land (N.lor (N.shiftl (N.shiftr x 4) 4) (N.land x 15)) 255 =? x)
  && (N.land (N.lor (N.shiftl (N.shiftr x 6) 6) (N.land x 63)) 255 =? x).

Definition pair_ok (x y : N) : bool :=
  (sextet1 x y <? 64)
  && (N.shiftr (sextet1 x y) 4 =? N.land x 3)
  && (N.land (sextet1 x y) 15 =? N.shiftr y 4)
  && (sextet2 x y <? 64)
  && (N.shiftr (sextet2 x y) 2 =? N.land x 15)
  && (N.land (sextet2 x y) 3 =? N.shiftr y 6).

End Base64.

(** ** The world outside the process and the trace of calls into it *)

(** An [httpx.Response], as far as the code looks at it: the status code,
    [response.content], the text of the [HTTPStatusError] that
    [raise_for_status] builds for it, and what [response.json()] does
    (the parsed body, or the exception the parser raises). *)
Record response : Type := mkResponse {
  status_code : Z;
  content : list byte;
  status_error : string;
  json : exn + pyval
}.

(** The arguments of [client.post(url, files=, data=, headers=)]; a file
    part is (field, (file name, bytes, content type)). *)
Record post_request : Type := mkPost {
  post_url : string;
  post_files : list (string * (string * list byte * string));
  post_data : pydict;
  post_headers : list (string * string)
}.

(** What the process cannot decide by itself.  The timeouts are those the
    clients are built with; a timeout shows as an [HTTPError]. *)
Record world : Type := mkWorld {
  getenv : string -> option string;
  client_get : Z -> pyval -> exn + response;
  client_post : Z -> post_request -> exn + response;
  (* [import whisper; import torch]: [None] when both are importable *)
  import_whisper_torch : option exn;
  cuda_is_available : bool;
  (* [whisper.load_model(name, device=device)] *)
  load_model : string -> string -> option exn;
  (* the temporary [.wav] file written with the audio: its path *)
  tmp_write : list byte -> exn + string;
  (* [model.transcribe(path, language=, task=, word_timestamps=)] of the
     model loaded under a name on a device, on a file holding these bytes *)
  model_transcribe :
    string -> string -> string -> list byte -> pyval -> pyval -> pyval ->
    exn + pydict;
  path_exists : string -> bool;
  unlink : string -> option exn
}.

Inductive event : Type :=
| EvGet (timeout : Z) (url : pyval)
| EvPost (timeout : Z) (req : post_request)
| EvImport
| EvLoadModel (name device : string)
| EvTmpWrite (data : list byte)
| EvTranscribe (path : string) (language task word_timestamps : pyval)
| EvUnlink (path : string).

(** A transcription call: the POST to the remote backend, or any use of the
    local model. *)
Definition is_transcription_call (e : event) : bool :=
  match e with
  | EvGet _ _ => false
  | _ => true
  end.

Definition is_download (e : event) : bool :=
  match e with
  | EvGet _ _ => true
  | _ => false
  end.

(** ** Computations that may raise and that leave a trace *)

Module Eff.

Definition M (A : Type) : Type := list event -> (exn + A) * list event.

Definition ret {A} (a : A) : M A := fun t => (inr a, t).

Definition raise {A} (e : exn) : M A := fun t => (inl e, t).

Definition bind {A B} (m : M A) (k : A -> M B) : M B :=
  fun t =>
    match m t with
    | (inr a, t') => k a t'
    | (inl e, t') => (inl e, t')
    end.

(** [try: m  except C as e: h e] *)
Definition try_except {A} (m : M A) (C : exn -> bool) (h : exn -> M A) : M A :=
  fun t =>
    match m t with
    | (inr a, t') => (inr a, t')
    | (inl e, t') => if C e then h e t' else (inl e, t')
    end.

(** [try: m  finally: f]: [f] runs on every exit, and an exception of its
    own replaces the outcome of [m]. *)
Definition try_finally {A} (m : M A) (f : M unit) : M A :=
  fun t =>
    match m t with
    | (r, t') =>
        match f t' with
        | (inr _, t'') => (r, t'')
        | (inl e, t'') => (inl e, t'')
        end
    end.

Definition emit (e : event) : M unit := fun t => (inr tt, (t ++ [e])%list).

Definition lift {A} (r : exn + A) : M A := fun t => (r, t).

Definition lift_unit (r : option exn) : M unit :=
  fun t => match r with Some e => (inl e, t) | None => (inr tt, t) end.

End Eff.

Import Eff.

Notation "x <- m ;; k" := (bind m (fun x => k))
  (at level 61, m at next level, right associativity).
Notation "m ;;; k" := (bind m (fun _ => k))
  (at level 61, right associativity).

(** ** handler.py *)

Section Handler.

Variable w : world.

(** [response.raise_for_status()]: an [HTTPStatusError] unless the status is
    a 2xx one. *)
Definition is_success (r : response) : bool :=
  ((200 <=? status_code r) && (status_code r <=? 299))%Z.

Definition raise_for_status (r : response) : M unit :=
  if is_success r then ret tt
  else raise (mkExn HTTPError (status_error r)).

Definition download_audio (url : pyval) : M (list byte) :=
  try_except
    (emit (EvGet 60 url) ;;;
     response <- lift (client_get w 60 url) ;;
     raise_for_status response ;;;
     ret (content response))
    is_HTTPError
    (fun e =>
       raise (mkExn PlainException
                ("Failed to download audio from URL: " ++ exn_str e))).

Definition process_audio_input (job_input : pydict) : M (list byte) :=
  if dict_contains job_input "audio" then
    let audio_data := dict_get job_input "audio" PNone in
    match audio_data with
    | PStr s =>
        try_except
          (lift (Base64.b64decode s))
          is_Exception
          (fun e =>
             raise (mkExn ValueError
                      ("Invalid base64 audio data: " ++ exn_str e)))
    | PBytes b => ret b
    | _ => raise (mkExn ValueError "Audio data must be base64 string or bytes")
    end
  else if dict_contains job_input "audio_url" then
    download_audio (dict_get job_input "audio_url" PNone)
  else
    raise (mkExn ValueError
             "No audio input provided. Use 'audio' (base64) or 'audio_url'").

(** [class WhisperTranscriber] *)
Record WhisperTranscriber : Type := mkTranscriber {
  whisper_service_url : option string;
  whisper_api_token : option string;
  use_external_service : bool
}.

(** [bool(os.getenv(name))] *)
Definition env_truthy (v : option string) : bool :=
  match v with
  | Some s => negb (s =? "")
  | None => false
  end.

(** [f"{v}"] of an [os.getenv] result *)
Definition env_format (v : option string) : string :=
  match v with
  | Some s => s
  | None => "None"
  end.

Definition WhisperTranscriber_init : WhisperTranscriber :=
  let url := getenv w "WHISPER_SERVICE_URL" in
  mkTranscriber url (getenv w "WHISPER_API_TOKEN") (env_truthy url).

Definition whisper_request (self : WhisperTranscriber) (audio_bytes : list byte)
    (language task return_timestamps : pyval) : post_request :=
  let payload :=
    ([("task", task); ("return_timestamps", return_timestamps)]
     ++ (if truthy language then [("language", language)] else []))%list in
  let files := [("audio", ("audio.wav", audio_bytes, "audio/wav"))] in
  let headers :=
    if env_truthy (whisper_api_token self)
    then [("Authorization", "Bearer " ++ env_format (whisper_api_token self))]
    else [] in
  mkPost (env_format (whisper_service_url self) ++ "/transcribe")
    files payload headers.

Definition _call_whisper_service (self : WhisperTranscriber)
    (audio_bytes : list byte) (language task return_timestamps : pyval)
    : M pyval :=
  let req := whisper_request self audio_bytes language task return_timestamps in
  try_except
    (emit (EvPost 300 req) ;;;
     response <- lift (client_post w 300 req) ;;
     raise_for_status response ;;;
     lift (json response))
    is_HTTPError
    (fun e =>
       raise (mkExn PlainException
                ("Failed to call Whisper service: " ++ exn_str e))).

(** [result[k]] *)
Definition dict_item (d : pydict) (k : string) : M pyval :=
  match dict_lookup d k with
  | Some v => ret v
  | None => raise (mkExn KeyError ("'" ++ k ++ "'"))
  end.

Definition _use_local_whisper (self : WhisperTranscriber)
    (audio_bytes : list byte) (language task return_timestamps : pyval)
    : M pyval :=
  try_except
    (emit EvImport ;;;
     lift_unit (import_whisper_torch w) ;;;
     let model_name :=
       match getenv w "WHISPER_MODEL" with Some m => m | None => "base" end in
     let device := if cuda_is_available w then "cuda" else "cpu" in
     emit (EvLoadModel model_name device) ;;;
     lift_unit (load_model w model_name device) ;;;
     emit (EvTmpWrite audio_bytes) ;;;
     tmp_path <- lift (tmp_write w audio_bytes) ;;
     try_finally
       (emit (EvTranscribe tmp_path language task return_timestamps) ;;;
        result <- lift (model_transcribe w model_name device tmp_path
                          audio_bytes language task return_timestamps) ;;
        text <- dict_item result "text" ;;
        ret (PDict [("text", text);
                    ("segments", dict_get result "segments" (PList []));
                    ("language", dict_get result "language" language)]))
       (if path_exists w tmp_path
        then emit (EvUnlink tmp_path) ;;; lift_unit (unlink w tmp_path)
        else ret tt))
    is_ImportError
    (fun _ =>
       raise (mkExn PlainException
                ("Whisper not installed locally and no WHISPER_SERVICE_URL provided. "
                 ++ "Please install openai-whisper or configure WHISPER_SERVICE_URL."))).

Definition transcribe_audio (self : WhisperTranscriber)
    (audio_bytes : list byte) (language task return_timestamps : pyval)
    : M pyval :=
  if use_external_service self
  then _call_whisper_service self audio_bytes language task return_timestamps
  else _use_local_whisper self audio_bytes language task return_timestamps.

(** [job_input.keys()]: only a [dict] has the method. *)
Definition keys_of (v : pyval) : M pydict :=
  match v with
  | PDict d => ret d
  | _ =>
      raise (mkExn AttributeError
               ("'" ++ type_name v ++ "' object has no attribute 'keys'"))
  end.

Definition success_envelope (transcription_result : pyval) : pyval :=
  PDict [("status", PStr "success"); ("transcription", transcription_result)].

Definition error_envelope (message : string) : pyval :=
  PDict [("status", PStr "error"); ("error", PStr message)].

Definition handler (job : pydict) : M pyval :=
  let job_input := dict_get job "input" (PDict []) in
  try_except
    (job_input <- keys_of job_input ;;
     let language := dict_get job_input "language" PNone in
     let task := dict_get job_input "task" (PStr "transcribe") in
     let return_timestamps := dict_get job_input "return_timestamps" (PBool true) in
     audio_bytes <- process_audio_input job_input ;;
     let transcriber := WhisperTranscriber_init in
     transcription_result <-
       transcribe_audio transcriber audio_bytes language task return_timestamps ;;
     ret (success_envelope transcription_result))
    is_Exception
    (fun e => ret (error_envelope (exn_str e))).

(** One invocation, from an empty trace: what it returns or raises, and the
    calls it made. *)
Definition run_handler (job : pydict) : (exn + pyval) * list event :=
  handler job [].

End Handler.

(** ** Vocabulary of the properties *)

(** The message of an HTTP call that failed the way [except httpx.HTTPError]
    catches: the call raised an [HTTPError] (transport failure, timeout), or
    it answered with a status [raise_for_status] rejects. *)
Definition http_failure (o : exn + response) : option string :=
  match o with
  | inl e => if is_HTTPError e then Some (exn_str e) else None
  | inr r => if is_success r then None else Some (status_error r)
  end.

Definition contains_text (needle hay : string) : Prop :=
  exists pre post, hay = pre ++ needle ++ post.

(** The job input of a job: [job.get("input", {})] when it is a [dict]. *)
Definition job_input_of (job : pydict) (d : pydict) : Prop :=
  dict_get job "input" (PDict []) = PDict d.

Definition missing_input_message : string :=
  "No audio input provided. Use 'audio' (base64) or 'audio_url'".

Definition model_unavailable_message : string :=
  "Whisper not installed locally and no WHISPER_SERVICE_URL provided. Please install openai-whisper or configure WHISPER_SERVICE_URL.".

(** The POST the handler sends for a job input [d] whose audio resolved to
    [audio_bytes]. *)
Definition backend_request (w : world) (d : pydict) (audio_bytes : list byte)
    : post_request :=
  whisper_request (WhisperTranscriber_init w) audio_bytes
    (dict_get d "language" PNone)
    (dict_get d "task" (PStr "transcribe"))
    (dict_get d "return_timestamps" (PBool true)).

(** What the resolver makes of the value under [audio], whatever else the
    job input holds. *)
Definition from_audio (audio_data : pyval) : exn + list byte :=
  match audio_data with
  | PStr s =>
      match Base64.b64decode s with
      | inr b => inr b
      | inl e => inl (mkExn ValueError ("Invalid base64 audio data: " ++ exn_str e))
      end
  | PBytes b => inr b
  | _ => inl (mkExn ValueError "Audio data must be base64 string or bytes")
  end.

(** ** Test doubles *)

Module Mock.

Definition hello : pyval :=
  PDict [("text", PStr "hello"); ("segments", PList []); ("language", PStr "en")].

Definition answer (status : Z) (body : list byte) (reason : string)
    (parsed : exn + pyval) : exn + response :=
  inr (mkResponse status body reason parsed).

Definition unreachable : exn + response :=
  inl (mkExn HTTPError "All connection attempts failed").

(** A process whose environment holds [url] as [WHISPER_SERVICE_URL] and
    nothing else, with fixed answers to GET and POST, and with the whisper
    import failing with [missing] if given. *)
Definition mock (url : option string) (get_reply post_reply : exn + response)
    (missing : option exn) : world :=
  {| getenv := fun name => if name =? "WHISPER_SERVICE_URL" then url else None;
     client_get := fun _ _ => get_reply;
     client_post := fun _ _ => post_reply;
     import_whisper_torch := missing;
     cuda_is_available := false;
     load_model := fun _ _ => None;
     tmp_write := fun _ => inr "/tmp/tmpk3v9.wav";
     model_transcribe := fun _ _ _ _ _ _ _ => inr [("text", PStr "")];
     path_exists := fun _ => true;
     unlink := fun _ => None |}.

Definition backend_url : string := "http://whisper:9000".

Definition backend_ok : world :=
  mock (Some backend_url) unreachable
    (answer 200 [] "" (inr hello)) None.

Definition backend_500 : world :=
  mock (Some backend_url) unreachable
    (answer 500 [] "Server error '500 Internal Server Error' for url 'http://whisper:9000/transcribe'"
       (inl (mkExn ValueError "Expecting value: line 1 column 1 (char 0)")))
    None.

Definition download_404 : world :=
  mock (Some backend_url)
    (answer 404 [] "Client error '404 Not Found' for url 'https://example.com/audio.mp3'"
       (inl (mkExn ValueError "Expecting value: line 1 column 1 (char 0)")))
    (answer 200 [] "" (inr hello)) None.

Definition nothing_available : world :=
  mock None unreachable unreachable
    (Some (mkExn ImportError "No module named 'whisper'")).

Definition job_with (input : pydict) : pydict := [("input", PDict input)].

End Mock.

(** ** Further vocabulary: traces, audio strings, the local test script *)

Definition is_post (e : event) : bool :=
  match e with
  | EvPost _ _ => true
  | _ => false
  end.

(** A step of the local model path. *)
Definition is_local (e : event) : bool :=
  match e with
  | EvGet _ _ | EvPost _ _ => false
  | _ => true
  end.

(** The model name and the device the local path uses. *)
Definition local_model_name (w : world) : string :=
  match getenv w "WHISPER_MODEL" with Some m => m | None => "base" end.

Definition local_device (w : world) : string :=
  if cuda_is_available w then "cuda" else "cpu".

(** The transcription result the local path builds from what the model
    returns. *)
Definition local_result (result : pydict) (language : pyval) : exn + pyval :=
  match dict_lookup result "text" with
  | Some text =>
      inr (PDict [("text", text);
                  ("segments", dict_get result "segments" (PList []));
                  ("language", dict_get result "language" language)])
  | None => inl (mkExn KeyError "'text'")
  end.

(** The keys of the job input the handler reads. *)
Definition read_keys : list string :=
  ["audio"; "audio_url"; "language"; "task"; "return_timestamps"].

Fixpoint string_forallb (p : ascii -> bool) (s : string) : bool :=
  match s with
  | EmptyString => true
  | String c s' => p c && string_forallb p s'
  end.

Definition is_ascii (c : ascii) : bool := (N_of_ascii c <? 128)%N.

(** An ASCII character that is neither in the alphabet nor the pad: a line
    break, a blank, [-], [_], [!]... *)
Definition is_junk (c : ascii) : bool :=
  is_ascii c && negb (c =? "=")%char && negb (Base64.in_alphabet c).

(** An ASCII character that carries no data: junk or the pad. *)
Definition is_dataless (c : ascii) : bool :=
  is_ascii c && negb (Base64.in_alphabet c).

(** The string without its pads. *)
Fixpoint remove_pads (s : string) : string :=
  match s with
  | EmptyString => EmptyString
  | String c s' =>
      if (c =? "=")%char then remove_pads s' else String c (remove_pads s')
  end.

(** The slack of the decoder's output against its input inside a quad. *)
Definition quad_slack (quad_pos : N) : nat :=
  match quad_pos with
  | 0%N => 0
  | 1%N => 3
  | 2%N => 2
  | _ => 1
  end.

(** [test_handler.py]: the two jobs the script submits, from the bytes of
    the file the user names or from the URL the user types (the default one
    when left empty). *)
Module TestHandler.


Definition file_job (audio_bytes : list byte) : pydict :=
  let audio_base64 := Base64.b64encode audio_bytes in
  [("input", PDict [("audio", PStr audio_base64);
                    ("language", PStr "en");
                    ("return_timestamps", PBool true)])].


End TestHandler.

(** Further test doubles: a process with no backend URL and a working
    whisper installation, whose model answers [transcribed] and whose
    temporary file removal does [removal]. *)
Module MockLocal.

Definition tmp_path : string := "/tmp/tmpk3v9.wav".

Definition local (transcribed : exn + pydict) (removal : option exn) : world :=
  {| getenv := fun _ => None;
     client_get := fun _ _ => Mock.unreachable;
     client_post := fun _ _ => Mock.unreachable;
     import_whisper_torch := None;
     cuda_is_available := false;
     load_model := fun _ _ => None;
     tmp_write := fun _ => inr tmp_path;
     model_transcribe := fun _ _ _ _ _ _ _ => transcribed;
     path_exists := fun _ => true;
     unlink := fun _ => removal |}.

End MockLocal.

(** ** Properties of the base64 codec *)

Module Base64Facts.

Import Base64.
Local Open Scope N_scope.

(** A boolean property checked on every number below [n] holds below [n]. *)
Lemma forall_below (P : N -> bool) (n : nat) :
  forallb P (map N.of_nat (seq 0 n)) = true ->
  forall v, v < N.of_nat n -> P v = true.
Proof.
  intros Hall v Hv.
  rewrite forallb_forall in Hall.
  apply Hall, in_map_iff.
  exists (N.to_nat v); split.
  - apply N2Nat.id.
  - apply in_seq; lia.
Qed.

Lemma char_ok_all v : v < 64 -> char_ok v = true.
Proof. apply (forall_below char_ok 64). vm_compute. reflexivity. Qed.

Lemma byte_ok_all x : x < 256 -> byte_ok x = true.
Proof. apply (forall_below byte_ok 256). vm_compute. reflexivity. Qed.

Lemma pair_ok_all x y : x < 256 -> y < 256 -> pair_ok x y = true.
Proof.
  intros Hx Hy.
  apply (forall_below (fun y => pair_ok x y) 256); [|exact Hy].
  revert x Hx.
  apply (forall_below
           (fun x => forallb (fun y => pair_ok x y) (map N.of_nat (seq 0 256))) 256).
  vm_compute. reflexivity.
Qed.

Lemma to_N_lt (b : byte) : Byte.to_N b < 256.
Proof. pose proof (Byte.to_N_bounded b). lia. Qed.

Lemma u8_to_N (n : N) (b : byte) : N.land n 255 = Byte.to_N b -> u8 n = b.
Proof. intros H. unfold u8. rewrite H, Byte.of_to_N. reflexivity. Qed.

(** One turn of the decoding loop on a character of the alphabet. *)
Lemma a2b_loop_data (v : N) (rest : list byte) (q lc p : N) (bin : list byte) :
  v < 64 ->
  a2b_loop (byte_of_ascii (b2a v) :: rest) q lc p bin =
  match q with
  | 0 => a2b_loop rest 1 v 0 bin
  | 1 => a2b_loop rest 2 (N.land v 15) 0
           (bin ++ [u8 (N.lor (N.shiftl lc 2) (N.shiftr v 4))])
  | 2 => a2b_loop rest 3 (N.land v 3) 0
           (bin ++ [u8 (N.lor (N.shiftl lc 4) (N.shiftr v 2))])
  | _ => a2b_loop rest 0 0 0 (bin ++ [u8 (N.lor (N.shiftl lc 6) v)])
  end.
Proof.
  intros Hv.
  pose proof (char_ok_all v Hv) as Hc.
  unfold char_ok in Hc.
  repeat (apply andb_prop in Hc; destruct Hc as [Hc ?]).
  cbn [a2b_loop].
  match goal with H : negb _ = true |- _ =>
    apply negb_true_iff in H; rewrite H end.
  match goal with H : (table_a2b_base64 _ =? v) = true |- _ =>
    apply N.eqb_eq in H; rewrite H end.
  cbv zeta.
  replace (64 <=? v) with false by (symmetry; apply N.leb_gt; exact Hv).
  reflexivity.
Qed.

Lemma encode_ascii_char (v : N) (s : string) (data : list byte) :
  v < 64 ->
  encode_ascii s = Some data ->
  encode_ascii (String (b2a v) s) = Some (byte_of_ascii (b2a v) :: data).
Proof.
  intros Hv Hs.
  pose proof (char_ok_all v Hv) as Hc.
  unfold char_ok in Hc.
  repeat (apply andb_prop in Hc; destruct Hc as [Hc ?]).
  cbn [encode_ascii]. rewrite Hc, Hs. reflexivity.
Qed.

Ltac split_checks H :=
  repeat (apply andb_prop in H; let H' := fresh "Hck" in destruct H as [H H']);
  repeat match goal with
         | Hc : (_ =? _) = true |- _ => apply N.eqb_eq in Hc
         end.

Lemma decode_byte1 (bx by_ : byte) :
  u8 (N.lor (N.shiftl (N.shiftr (Byte.to_N bx) 2) 2)
        (N.shiftr (sextet1 (Byte.to_N bx) (Byte.to_N by_)) 4)) = bx.
Proof.
  pose proof (pair_ok_all _ _ (to_N_lt bx) (to_N_lt by_)) as Hp.
  pose proof (byte_ok_all _ (to_N_lt bx)) as Hb.
  unfold pair_ok in Hp; unfold byte_ok in Hb.
  split_checks Hp; split_checks Hb.
  apply u8_to_N. congruence.
Qed.

Lemma decode_byte2 (bx by_ bz : byte) :
  u8 (N.lor (N.shiftl (N.land (sextet1 (Byte.to_N bx) (Byte.to_N by_)) 15) 4)
        (N.shiftr (sextet2 (Byte.to_N by_) (Byte.to_N bz)) 2)) = by_.
Proof.
  pose proof (pair_ok_all _ _ (to_N_lt bx) (to_N_lt by_)) as Hp.
  pose proof (pair_ok_all _ _ (to_N_lt by_) (to_N_lt bz)) as Hq.
  pose proof (byte_ok_all _ (to_N_lt by_)) as Hb.
  unfold pair_ok in Hp, Hq; unfold byte_ok in Hb.
  split_checks Hp; split_checks Hq; split_checks Hb.
  apply u8_to_N. congruence.
Qed.

Lemma decode_byte3 (by_ bz : byte) :
  u8 (N.lor (N.shiftl (N.land (sextet2 (Byte.to_N by_) (Byte.to_N bz)) 3) 6)
        (N.land (Byte.to_N bz) 63)) = bz.
Proof.
  pose proof (pair_ok_all _ _ (to_N_lt by_) (to_N_lt bz)) as Hq.
  pose proof (byte_ok_all _ (to_N_lt bz)) as Hb.
  unfold pair_ok in Hq; unfold byte_ok in Hb.
  split_checks Hq; split_checks Hb.
  apply u8_to_N. congruence.
Qed.

Lemma sextet_bounds (bx by_ : byte) :
  N.shiftr (Byte.to_N bx) 2 < 64
  /\ sextet1 (Byte.to_N bx) (Byte.to_N by_) < 64
  /\ sextet2 (Byte.to_N bx) (Byte.to_N by_) < 64
  /\ N.land (Byte.to_N bx) 63 < 64.
Proof.
  pose proof (pair_ok_all _ _ (to_N_lt bx) (to_N_lt by_)) as Hp.
  pose proof (byte_ok_all _ (to_N_lt bx)) as Hb.
  unfold pair_ok in Hp; unfold byte_ok in Hb.
  split_checks Hp; split_checks Hb.
  repeat match goal with
         | Hc : (_ <? _) = true |- _ => apply N.ltb_lt in Hc
         end.
  repeat split; assumption.
Qed.

(** The pads that close a group of one byte and of two. *)
Lemma a2b_loop_pads2 (lc : N) (bin : list byte) :
  a2b_loop [x3d; x3d] 2 lc 0 bin = inr bin.
Proof. reflexivity. Qed.

Lemma a2b_loop_pad3 (lc : N) (bin : list byte) :
  a2b_loop [x3d] 3 lc 0 bin = inr bin.
Proof. reflexivity. Qed.

(** Lists three elements at a time. *)
Lemma list_ind3 {A : Type} (P : list A -> Prop) :
  P [] ->
  (forall x, P [x]) ->
  (forall x y, P [x; y]) ->
  (forall x y z l, P l -> P (x :: y :: z :: l)) ->
  forall l, P l.
Proof.
  intros H0 H1 H2 H3 l.
  assert (H : P l /\ (forall x, P (x :: l)) /\ (forall x y, P (x :: y :: l))).
  { induction l as [|a l IH].
    - repeat split; auto.
    - destruct IH as (IH0 & IH1 & IH2). repeat split; auto. }
  apply H.
Qed.

Lemma last_sextet1 (x : N) : N.shiftl (N.land x 3) 4 = sextet1 x 0.
Proof. unfold sextet1. cbn [N.shiftr]. rewrite N.lor_0_r. reflexivity. Qed.

Lemma last_sextet2 (y : N) : N.shiftl (N.land y 15) 2 = sextet2 y 0.
Proof. unfold sextet2. cbn [N.shiftr]. rewrite N.lor_0_r. reflexivity. Qed.

(** The encoding of [b] is ASCII, and from the start of a quad the loop
    writes [b] after what it has written and stops without error. *)
Lemma a2b_loop_b64encode (b : list byte) :
  forall lc p bin,
  exists data,
    encode_ascii (b64encode b) = Some data
    /\ a2b_loop data 0 lc p bin = inr (bin ++ b)%list.
Proof.
  induction b as [|x|x y|x y z rest IH] using list_ind3; intros lc p bin.
  - exists []. split; [reflexivity|]. cbn. rewrite app_nil_r. reflexivity.
  - destruct (sextet_bounds x x00) as (B0 & B1 & _ & _).
    change (Byte.to_N x00) with 0 in B1.
    eexists. split.
    + cbn [b64encode]. cbv zeta. rewrite last_sextet1.
      apply encode_ascii_char; [exact B0|].
      apply encode_ascii_char; [exact B1|].
      reflexivity.
    + rewrite (a2b_loop_data _ _ _ _ _ _ B0).
      rewrite (a2b_loop_data _ _ _ _ _ _ B1).
      change (sextet1 (Byte.to_N x) 0)
        with (sextet1 (Byte.to_N x) (Byte.to_N x00)).
      cbv iota beta. rewrite decode_byte1.
      apply a2b_loop_pads2.
  - destruct (sextet_bounds x y) as (B0 & B1 & _ & _).
    destruct (sextet_bounds y x00) as (_ & _ & B2 & _).
    change (Byte.to_N x00) with 0 in B2.
    eexists. split.
    + cbn [b64encode]. cbv zeta. rewrite last_sextet2.
      apply encode_ascii_char; [exact B0|].
      apply encode_ascii_char; [exact B1|].
      apply encode_ascii_char; [exact B2|].
      reflexivity.
    + rewrite (a2b_loop_data _ _ _ _ _ _ B0).
      rewrite (a2b_loop_data _ _ _ _ _ _ B1).
      rewrite (a2b_loop_data _ _ _ _ _ _ B2).
      change (sextet2 (Byte.to_N y) 0)
        with (sextet2 (Byte.to_N y) (Byte.to_N x00)).
      cbv iota beta. rewrite decode_byte1, decode_byte2.
      rewrite <- app_assoc. apply a2b_loop_pad3.
  - destruct (sextet_bounds x y) as (B0 & B1 & _ & _).
    destruct (sextet_bounds y z) as (_ & _ & B2 & _).
    destruct (sextet_bounds z z) as (_ & _ & _ & B3).
    destruct (IH 0 0 (bin ++ [x; y; z])%list) as (data & Hdata & Hloop).
    eexists. split.
    + cbn [b64encode]. cbv zeta.
      apply encode_ascii_char; [exact B0|].
      apply encode_ascii_char; [exact B1|].
      apply encode_ascii_char; [exact B2|].
      apply encode_ascii_char; [exact B3|].
      exact Hdata.
    + rewrite (a2b_loop_data _ _ _ _ _ _ B0).
      rewrite (a2b_loop_data _ _ _ _ _ _ B1).
      rewrite (a2b_loop_data _ _ _ _ _ _ B2).
      rewrite (a2b_loop_data _ _ _ _ _ _ B3).
      cbv iota beta.
      rewrite decode_byte1, decode_byte2, decode_byte3.
      repeat rewrite <- app_assoc. cbn [app].
      rewrite Hloop. rewrite <- app_assoc. reflexivity.
Qed.

(** Decoding undoes encoding. *)
Lemma b64decode_b64encode (b : list byte) :
  b64decode (b64encode b) = inr b.
Proof.
  destruct (a2b_loop_b64encode b 0 0 []) as (data & Hdata & Hloop).
  unfold b64decode, a2b_base64. rewrite Hdata, Hloop. reflexivity.
Qed.

(** The encoder produces what [is_standard_base64] accepts. *)
Lemma b64encode_standard (b : list byte) :
  is_standard_base64 (b64encode b) = true.
Proof.
  assert (Hin : forall v, v < 64 -> in_alphabet (b2a v) = true).
  { intros v Hv. pose proof (char_ok_all v Hv) as Hc. unfold char_ok in Hc.
    apply andb_prop in Hc. apply Hc. }
  unfold is_standard_base64.
  induction b as [|x|x y|x y z rest IH] using list_ind3.
  - reflexivity.
  - destruct (sextet_bounds x x00) as (B0 & B1 & _ & _).
    change (Byte.to_N x00) with 0 in B1.
    cbn [b64encode]. cbv zeta. rewrite last_sextet1.
    cbn [alphabet_then_pads String.length]. rewrite !Hin by assumption.
    reflexivity.
  - destruct (sextet_bounds x y) as (B0 & B1 & _ & _).
    destruct (sextet_bounds y x00) as (_ & _ & B2 & _).
    change (Byte.to_N x00) with 0 in B2.
    cbn [b64encode]. cbv zeta. rewrite last_sextet2.
    cbn [alphabet_then_pads String.length]. rewrite !Hin by assumption.
    reflexivity.
  - destruct (sextet_bounds x y) as (B0 & B1 & _ & _).
    destruct (sextet_bounds y z) as (_ & _ & B2 & _).
    destruct (sextet_bounds z z) as (_ & _ & _ & B3).
    apply andb_prop in IH. destruct IH as [IH1 IH2].
    cbn [b64encode]. cbv zeta.
    cbn [alphabet_then_pads String.length]. rewrite !Hin by assumption.
    rewrite IH1. cbn [andb].
    apply Nat.eqb_eq in IH2. apply Nat.eqb_eq.
    change (S (S (S (S (String.length (b64encode rest))))))
      with (4 + String.length (b64encode rest))%nat.
    rewrite <- Nat.Div0.add_mod_idemp_r, IH2. reflexivity.
Qed.

End Base64Facts.

(** ** Properties of the handler *)

Import Base64.

Ltac unfold_eff :=
  unfold bind, try_except, try_finally, ret, raise, lift, lift_unit, emit.

(** The entry point, by cases on its three stages. *)
Lemma run_handler_stages (w : world) (job : pydict) :
  run_handler w job =
  match keys_of (dict_get job "input" (PDict [])) [] with
  | (inl e, t) => (inr (error_envelope (exn_str e)), t)
  | (inr d, t) =>
      match process_audio_input w d t with
      | (inl e, t1) => (inr (error_envelope (exn_str e)), t1)
      | (inr audio_bytes, t1) =>
          match transcribe_audio w (WhisperTranscriber_init w) audio_bytes
                  (dict_get d "language" PNone)
                  (dict_get d "task" (PStr "transcribe"))
                  (dict_get d "return_timestamps" (PBool true)) t1 with
          | (inl e, t2) => (inr (error_envelope (exn_str e)), t2)
          | (inr r, t2) => (inr (success_envelope r), t2)
          end
      end
  end.
Proof.
  unfold run_handler, handler.
  unfold bind at 1 2 3. unfold try_except at 1. unfold is_Exception.
  destruct (keys_of _ []) as [[e|d] t]; [reflexivity|].
  destruct (process_audio_input w d t) as [[e|b] t1]; [reflexivity|].
  destruct (transcribe_audio _ _ _ _ _ _ t1) as [[e|r] t2]; reflexivity.
Qed.

Lemma run_handler_dict (w : world) (job d : pydict) :
  job_input_of job d ->
  run_handler w job =
  match process_audio_input w d [] with
  | (inl e, t1) => (inr (error_envelope (exn_str e)), t1)
  | (inr audio_bytes, t1) =>
      match transcribe_audio w (WhisperTranscriber_init w) audio_bytes
              (dict_get d "language" PNone)
              (dict_get d "task" (PStr "transcribe"))
              (dict_get d "return_timestamps" (PBool true)) t1 with
      | (inl e, t2) => (inr (error_envelope (exn_str e)), t2)
      | (inr r, t2) => (inr (success_envelope r), t2)
      end
  end.
Proof.
  intros Hd. rewrite run_handler_stages. unfold job_input_of in Hd.
  rewrite Hd. reflexivity.
Qed.

(** C1: for every job mapping the handler returns, and never raises: what it
    returns is the success envelope around a transcription result or the
    error envelope around a message, and these two are distinct.  A failure
    of reading the input, of the audio resolver or of the transcription
    dispatcher becomes the error envelope that carries its message; the
    success envelope only arises when every stage has returned. *)
Theorem handler_returns_envelope : forall (w : world) (job : pydict),
  (exists v t,
     run_handler w job = (inr v, t)
     /\ ((exists r, v = success_envelope r) \/ (exists m, v = error_envelope m)))
  /\ (forall r m, success_envelope r <> error_envelope m)
  /\ run_handler w job =
     match keys_of (dict_get job "input" (PDict [])) [] with
     | (inl e, t) => (inr (error_envelope (exn_str e)), t)
     | (inr d, t) =>
         match process_audio_input w d t with
         | (inl e, t1) => (inr (error_envelope (exn_str e)), t1)
         | (inr audio_bytes, t1) =>
             match transcribe_audio w (WhisperTranscriber_init w) audio_bytes
                     (dict_get d "language" PNone)
                     (dict_get d "task" (PStr "transcribe"))
                     (dict_get d "return_timestamps" (PBool true)) t1 with
             | (inl e, t2) => (inr (error_envelope (exn_str e)), t2)
             | (inr r, t2) => (inr (success_envelope r), t2)
             end
         end
     end.
Proof.
  intros w job. split; [|split].
  - rewrite run_handler_stages.
    destruct (keys_of _ []) as [[e|d] t]; [eauto 6|].
    destruct (process_audio_input w d t) as [[e|b] t1]; [eauto 6|].
    destruct (transcribe_audio _ _ _ _ _ _ t1) as [[e|r] t2]; eauto 6.
  - intros r m. unfold success_envelope, error_envelope. discriminate.
  - apply run_handler_stages.
Qed.

(** *** The audio resolver *)

Lemma append_empty_r (s : string) : s ++ "" = s.
Proof. induction s as [|c s IH]; cbn; [|rewrite IH]; reflexivity. Qed.

Lemma dict_contains_lookup (d : pydict) (k : string) (v : pyval) :
  dict_lookup d k = Some v -> dict_contains d k = true.
Proof. intros H. unfold dict_contains. rewrite H. reflexivity. Qed.

Lemma dict_get_lookup (d : pydict) (k : string) (v dflt : pyval) :
  dict_lookup d k = Some v -> dict_get d k dflt = v.
Proof. intros H. unfold dict_get. rewrite H. reflexivity. Qed.

Lemma resolve_from_audio (w : world) (d : pydict) (v : pyval) (t : list event) :
  dict_lookup d "audio" = Some v ->
  process_audio_input w d t = (from_audio v, t).
Proof.
  intros H. unfold process_audio_input.
  rewrite (dict_contains_lookup _ _ _ H), (dict_get_lookup _ _ _ PNone H).
  destruct v; try reflexivity.
  unfold_eff. unfold from_audio, is_Exception.
  destruct (b64decode s); reflexivity.
Qed.

Lemma resolve_from_url (w : world) (d : pydict) (url : pyval) (t : list event) :
  dict_contains d "audio" = false ->
  dict_lookup d "audio_url" = Some url ->
  process_audio_input w d t = download_audio w url t.
Proof.
  intros Ha Hu. unfold process_audio_input.
  rewrite Ha, (dict_contains_lookup _ _ _ Hu), (dict_get_lookup _ _ _ PNone Hu).
  reflexivity.
Qed.

Lemma resolve_missing (w : world) (d : pydict) (t : list event) :
  dict_contains d "audio" = false ->
  dict_contains d "audio_url" = false ->
  process_audio_input w d t = (inl (mkExn ValueError missing_input_message), t).
Proof.
  intros Ha Hu. unfold process_audio_input. rewrite Ha, Hu. reflexivity.
Qed.

Lemma download_audio_failure (w : world) (url : pyval) (msg : string)
    (t : list event) :
  http_failure (client_get w 60 url) = Some msg ->
  download_audio w url t =
  (inl (mkExn PlainException ("Failed to download audio from URL: " ++ msg)),
   (t ++ [EvGet 60 url])%list).
Proof.
  intros H. unfold download_audio, raise_for_status. unfold_eff.
  unfold http_failure in H.
  destruct (client_get w 60 url) as [e|r].
  - destruct (is_HTTPError e) eqn:He; [|discriminate].
    injection H as <-. reflexivity.
  - destruct (is_success r); [discriminate|].
    injection H as <-. reflexivity.
Qed.

(** *** The transcription dispatcher *)

Lemma init_external (w : world) (u : string) :
  getenv w "WHISPER_SERVICE_URL" = Some u ->
  (u =? "") = false ->
  use_external_service (WhisperTranscriber_init w) = true
  /\ whisper_service_url (WhisperTranscriber_init w) = Some u.
Proof.
  intros Hu Hne. unfold WhisperTranscriber_init. cbn.
  rewrite Hu. cbn. rewrite Hne. split; reflexivity.
Qed.

Lemma call_whisper_failure (w : world) (self : WhisperTranscriber)
    (b : list byte) (language task rt : pyval) (msg : string) (t : list event) :
  http_failure (client_post w 300 (whisper_request self b language task rt))
    = Some msg ->
  _call_whisper_service w self b language task rt t =
  (inl (mkExn PlainException ("Failed to call Whisper service: " ++ msg)),
   (t ++ [EvPost 300 (whisper_request self b language task rt)])%list).
Proof.
  intros H. unfold _call_whisper_service, raise_for_status. unfold_eff.
  unfold http_failure in H.
  destruct (client_post w 300 _) as [e|r].
  - destruct (is_HTTPError e) eqn:He; [|discriminate].
    injection H as <-. reflexivity.
  - destruct (is_success r); [discriminate|].
    injection H as <-. reflexivity.
Qed.

Lemma call_whisper_success (w : world) (self : WhisperTranscriber)
    (b : list byte) (language task rt : pyval) (r : response) (v : pyval)
    (t : list event) :
  client_post w 300 (whisper_request self b language task rt) = inr r ->
  is_success r = true ->
  json r = inr v ->
  _call_whisper_service w self b language task rt t =
  (inr v, (t ++ [EvPost 300 (whisper_request self b language task rt)])%list).
Proof.
  intros Hp Hs Hj. unfold _call_whisper_service, raise_for_status. unfold_eff.
  rewrite Hp, Hs, Hj. reflexivity.
Qed.

Lemma local_whisper_missing (w : world) (self : WhisperTranscriber)
    (b : list byte) (language task rt : pyval) (e : exn) (t : list event) :
  import_whisper_torch w = Some e ->
  is_ImportError e = true ->
  _use_local_whisper w self b language task rt t =
  (inl (mkExn PlainException model_unavailable_message), (t ++ [EvImport])%list).
Proof.
  intros Hi He. unfold _use_local_whisper. unfold_eff.
  rewrite Hi, He. reflexivity.
Qed.

(** *** The entry point *)

(** C2: with a backend URL configured, for any audio bytes sent as their
    base64 encoding, when the backend answers the POST with status 200 and a
    body that parses as JSON, the handler returns the success envelope around
    that parsed body, unchanged; the only call made is one POST to
    [{backend_url}/transcribe] whose file part carries exactly those bytes. *)
Theorem remote_success_verbatim :
  forall (w : world) (job d : pydict) (b : list byte) (u : string)
         (r : response) (v : pyval),
  job_input_of job d ->
  dict_lookup d "audio" = Some (PStr (b64encode b)) ->
  getenv w "WHISPER_SERVICE_URL" = Some u ->
  (u =? "") = false ->
  client_post w 300 (backend_request w d b) = inr r ->
  status_code r = 200%Z ->
  json r = inr v ->
  run_handler w job =
    (inr (success_envelope v), [EvPost 300 (backend_request w d b)])
  /\ post_url (backend_request w d b) = u ++ "/transcribe"
  /\ post_files (backend_request w d b) =
       [("audio", ("audio.wav", b, "audio/wav"))].
Proof.
  intros w job d b u r v Hjob Haudio Hu Hne Hpost Hst Hjson.
  destruct (init_external w u Hu Hne) as [Hext Hurl].
  split; [|split].
  - rewrite (run_handler_dict w job d Hjob).
    rewrite (resolve_from_audio w d _ [] Haudio).
    unfold from_audio. rewrite Base64Facts.b64decode_b64encode.
    unfold transcribe_audio. rewrite Hext.
    unfold backend_request in *.
    rewrite (call_whisper_success w _ b _ _ _ r v [] Hpost); [reflexivity| |exact Hjson].
    unfold is_success. rewrite Hst. reflexivity.
  - unfold backend_request, whisper_request. cbn [post_url].
    rewrite Hurl. reflexivity.
  - reflexivity.
Qed.

(** The mocked backend of the interface's example. *)
Lemma remote_success_verbatim_witness :
  run_handler Mock.backend_ok
    (Mock.job_with [("audio", PStr "aGVsbG8="); ("language", PStr "en")]) =
    (inr (PDict [("status", PStr "success");
                 ("transcription",
                  PDict [("text", PStr "hello"); ("segments", PList []);
                         ("language", PStr "en")])]),
     [EvPost 300
        (mkPost "http://whisper:9000/transcribe"
           [("audio", ("audio.wav", [x68; x65; x6c; x6c; x6f], "audio/wav"))]
           [("task", PStr "transcribe"); ("return_timestamps", PBool true);
            ("language", PStr "en")]
           [])]).
Proof.
  apply (remote_success_verbatim Mock.backend_ok
           (Mock.job_with [("audio", PStr "aGVsbG8="); ("language", PStr "en")])
           [("audio", PStr "aGVsbG8="); ("language", PStr "en")]
           [x68; x65; x6c; x6c; x6f] Mock.backend_url
           (mkResponse 200 [] "" (inr Mock.hello)) Mock.hello);
    reflexivity.
Defined.

(** C3, as the code has it: when the decode step fails on the string under
    [audio] (a character outside ASCII, or data characters left over in an
    open group once the characters outside the alphabet are skipped), the
    handler returns the error envelope whose message is
    "Invalid base64 audio data: " followed by the decoder's message, and
    calls nothing outside the process. *)
Theorem undecodable_audio_rejected :
  forall (w : world) (job d : pydict) (s : string) (e : exn),
  job_input_of job d ->
  dict_lookup d "audio" = Some (PStr s) ->
  b64decode s = inl e ->
  run_handler w job =
    (inr (error_envelope ("Invalid base64 audio data: " ++ exn_str e)), []).
Proof.
  intros w job d s e Hjob Haudio Hdec.
  rewrite (run_handler_dict w job d Hjob).
  rewrite (resolve_from_audio w d _ [] Haudio).
  unfold from_audio. rewrite Hdec. reflexivity.
Qed.

Lemma undecodable_audio_rejected_witness :
  run_handler Mock.backend_ok (Mock.job_with [("audio", PStr "!!!not-base64!!!")]) =
    (inr (error_envelope
            "Invalid base64 audio data: Invalid base64-encoded string: number of data characters (9) cannot be 1 more than a multiple of 4"),
     []).
Proof.
  apply (undecodable_audio_rejected Mock.backend_ok
           (Mock.job_with [("audio", PStr "!!!not-base64!!!")])
           [("audio", PStr "!!!not-base64!!!")]
           "!!!not-base64!!!"
           (mkExn ValueError
              "Invalid base64-encoded string: number of data characters (9) cannot be 1 more than a multiple of 4"));
    reflexivity.
Defined.

(** A string that is not standard base64 and that the decode step accepts:
    its characters are all outside the alphabet, they are skipped, and the
    job is transcribed as empty audio. *)
Lemma lenient_decoding_counterexample :
  is_standard_base64 "!!!!" = false
  /\ b64decode "!!!!" = inr []
  /\ run_handler Mock.backend_ok (Mock.job_with [("audio", PStr "!!!!")]) =
       (inr (success_envelope Mock.hello),
        [EvPost 300
           (mkPost "http://whisper:9000/transcribe"
              [("audio", ("audio.wav", [], "audio/wav"))]
              [("task", PStr "transcribe"); ("return_timestamps", PBool true)]
              [])])
  /\ (forall m t,
        run_handler Mock.backend_ok (Mock.job_with [("audio", PStr "!!!!")])
        <> (inr (error_envelope m), t)).
Proof.
  split; [reflexivity|]. split; [reflexivity|]. split; [reflexivity|].
  intros m t H. discriminate H.
Qed.

(** C4: when the job input holds neither [audio] nor [audio_url], the
    handler returns the error envelope with the missing-input message, and
    calls nothing outside the process. *)
Theorem missing_input_rejected :
  forall (w : world) (job d : pydict),
  job_input_of job d ->
  dict_contains d "audio" = false ->
  dict_contains d "audio_url" = false ->
  run_handler w job =
    (inr (error_envelope
            "No audio input provided. Use 'audio' (base64) or 'audio_url'"), []).
Proof.
  intros w job d Hjob Ha Hu.
  rewrite (run_handler_dict w job d Hjob).
  rewrite (resolve_missing w d [] Ha Hu). reflexivity.
Qed.

Lemma missing_input_rejected_witness :
  run_handler Mock.backend_ok (Mock.job_with [("language", PStr "en")]) =
    (inr (PDict [("status", PStr "error");
                 ("error",
                  PStr "No audio input provided. Use 'audio' (base64) or 'audio_url'")]),
     []).
Proof.
  apply (missing_input_rejected Mock.backend_ok
           (Mock.job_with [("language", PStr "en")]) [("language", PStr "en")]);
    reflexivity.
Defined.

(** C5: when the job input names its audio by [audio_url] and the GET fails
    (a status outside 2xx, or a transport failure), the handler returns the
    error envelope whose message is "Failed to download audio from URL: "
    followed by the failure's message; the GET is the only call made, so
    neither the backend POST nor the local model is reached. *)
Theorem failed_download_aborts :
  forall (w : world) (job d : pydict) (url : pyval) (msg : string),
  job_input_of job d ->
  dict_contains d "audio" = false ->
  dict_lookup d "audio_url" = Some url ->
  http_failure (client_get w 60 url) = Some msg ->
  run_handler w job =
    (inr (error_envelope ("Failed to download audio from URL: " ++ msg)),
     [EvGet 60 url])
  /\ existsb is_transcription_call (snd (run_handler w job)) = false.
Proof.
  intros w job d url msg Hjob Ha Hu Hget.
  assert (Hrun : run_handler w job =
            (inr (error_envelope ("Failed to download audio from URL: " ++ msg)),
             [EvGet 60 url])).
  { rewrite (run_handler_dict w job d Hjob).
    rewrite (resolve_from_url w d url [] Ha Hu).
    rewrite (download_audio_failure w url msg [] Hget). reflexivity. }
  split; [exact Hrun|]. rewrite Hrun. reflexivity.
Qed.

Lemma failed_download_aborts_witness :
  run_handler Mock.download_404
    (Mock.job_with [("audio_url", PStr "https://example.com/audio.mp3")]) =
    (inr (error_envelope
            "Failed to download audio from URL: Client error '404 Not Found' for url 'https://example.com/audio.mp3'"),
     [EvGet 60 (PStr "https://example.com/audio.mp3")])
  /\ existsb is_transcription_call
       (snd (run_handler Mock.download_404
               (Mock.job_with [("audio_url", PStr "https://example.com/audio.mp3")])))
     = false.
Proof.
  apply (failed_download_aborts Mock.download_404
           (Mock.job_with [("audio_url", PStr "https://example.com/audio.mp3")])
           [("audio_url", PStr "https://example.com/audio.mp3")]
           (PStr "https://example.com/audio.mp3")
           "Client error '404 Not Found' for url 'https://example.com/audio.mp3'");
    reflexivity.
Defined.

(** C6: with a backend URL configured, when the POST to the backend fails
    with an HTTP error (a status outside 2xx such as 500, or a transport
    failure), the handler returns the error envelope whose message is
    "Failed to call Whisper service: " followed by the failure's message: it
    contains "Whisper service" and the underlying message, and it is not a
    success envelope. *)
Theorem backend_failure_wrapped :
  forall (w : world) (job d : pydict) (b : list byte) (t : list event)
         (u msg : string),
  job_input_of job d ->
  process_audio_input w d [] = (inr b, t) ->
  getenv w "WHISPER_SERVICE_URL" = Some u ->
  (u =? "") = false ->
  http_failure (client_post w 300 (backend_request w d b)) = Some msg ->
  run_handler w job =
    (inr (error_envelope ("Failed to call Whisper service: " ++ msg)),
     (t ++ [EvPost 300 (backend_request w d b)])%list)
  /\ contains_text "Whisper service" ("Failed to call Whisper service: " ++ msg)
  /\ contains_text msg ("Failed to call Whisper service: " ++ msg)
  /\ (forall r, error_envelope ("Failed to call Whisper service: " ++ msg)
                <> success_envelope r).
Proof.
  intros w job d b t u msg Hjob Hres Hu Hne Hpost.
  destruct (init_external w u Hu Hne) as [Hext _].
  split; [|split; [|split]].
  - rewrite (run_handler_dict w job d Hjob). rewrite Hres.
    unfold transcribe_audio. rewrite Hext.
    unfold backend_request in Hpost.
    rewrite (call_whisper_failure w _ b _ _ _ msg t Hpost). reflexivity.
  - exists "Failed to call ", (": " ++ msg). reflexivity.
  - exists "Failed to call Whisper service: ", "".
    rewrite append_empty_r. reflexivity.
  - intros r H. discriminate H.
Qed.

Lemma backend_failure_wrapped_witness :
  run_handler Mock.backend_500 (Mock.job_with [("audio", PStr "aGVsbG8=")]) =
    (inr (error_envelope
            "Failed to call Whisper service: Server error '500 Internal Server Error' for url 'http://whisper:9000/transcribe'"),
     [EvPost 300
        (mkPost "http://whisper:9000/transcribe"
           [("audio", ("audio.wav", [x68; x65; x6c; x6c; x6f], "audio/wav"))]
           [("task", PStr "transcribe"); ("return_timestamps", PBool true)]
           [])]).
Proof.
  apply (backend_failure_wrapped Mock.backend_500
           (Mock.job_with [("audio", PStr "aGVsbG8=")])
           [("audio", PStr "aGVsbG8=")]
           [x68; x65; x6c; x6c; x6f] [] Mock.backend_url
           "Server error '500 Internal Server Error' for url 'http://whisper:9000/transcribe'");
    reflexivity.
Defined.

(** C7: with no backend URL configured (unset or empty), once the audio is
    resolved, when importing the local model library fails, the handler
    returns the error envelope whose message says that whisper is not
    installed locally and that no WHISPER_SERVICE_URL is provided, and asks
    to install openai-whisper or to configure WHISPER_SERVICE_URL; the
    import is the only step of the local path that ran. *)
Theorem model_unavailable_reported :
  forall (w : world) (job d : pydict) (b : list byte) (t : list event) (e : exn),
  job_input_of job d ->
  process_audio_input w d [] = (inr b, t) ->
  env_truthy (getenv w "WHISPER_SERVICE_URL") = false ->
  import_whisper_torch w = Some e ->
  is_ImportError e = true ->
  run_handler w job =
    (inr (error_envelope
            "Whisper not installed locally and no WHISPER_SERVICE_URL provided. Please install openai-whisper or configure WHISPER_SERVICE_URL."),
     (t ++ [EvImport])%list)
  /\ contains_text "Whisper not installed locally" model_unavailable_message
  /\ contains_text "no WHISPER_SERVICE_URL provided" model_unavailable_message
  /\ contains_text "install openai-whisper or configure WHISPER_SERVICE_URL"
       model_unavailable_message.
Proof.
  intros w job d b t e Hjob Hres Hno Himp He.
  split; [|split; [|split]].
  - rewrite (run_handler_dict w job d Hjob). rewrite Hres.
    unfold transcribe_audio.
    replace (use_external_service (WhisperTranscriber_init w)) with false
      by (symmetry; exact Hno).
    rewrite (local_whisper_missing w _ b _ _ _ e t Himp He). reflexivity.
  - exists "", " and no WHISPER_SERVICE_URL provided. Please install openai-whisper or configure WHISPER_SERVICE_URL.".
    reflexivity.
  - exists "Whisper not installed locally and ", ". Please install openai-whisper or configure WHISPER_SERVICE_URL.".
    reflexivity.
  - exists "Whisper not installed locally and no WHISPER_SERVICE_URL provided. Please ", ".".
    reflexivity.
Qed.

Lemma model_unavailable_reported_witness :
  run_handler Mock.nothing_available (Mock.job_with [("audio", PStr "aGVsbG8=")]) =
    (inr (error_envelope
            "Whisper not installed locally and no WHISPER_SERVICE_URL provided. Please install openai-whisper or configure WHISPER_SERVICE_URL."),
     [EvImport]).
Proof.
  apply (model_unavailable_reported Mock.nothing_available
           (Mock.job_with [("audio", PStr "aGVsbG8=")])
           [("audio", PStr "aGVsbG8=")]
           [x68; x65; x6c; x6c; x6f] []
           (mkExn ImportError "No module named 'whisper'"));
    reflexivity.
Defined.

(** C8: when the job input holds both [audio] and [audio_url], the resolver
    answers from [audio] alone (the decoded bytes of a string, the bytes
    themselves, or the rejection of another value) and leaves the trace as it
    was, so no download is made; a download in the resolver's trace means
    [audio] was absent. *)
Theorem audio_takes_precedence :
  forall (w : world) (d : pydict) (audio_data : pyval),
  dict_lookup d "audio" = Some audio_data ->
  dict_contains d "audio_url" = true ->
  (forall t, process_audio_input w d t = (from_audio audio_data, t))
  /\ (forall b, audio_data = PBytes b ->
        process_audio_input w d [] = (inr b, []))
  /\ (forall s b, audio_data = PStr s -> b64decode s = inr b ->
        process_audio_input w d [] = (inr b, []))
  /\ existsb is_download (snd (process_audio_input w d [])) = false
  /\ (forall d', existsb is_download (snd (process_audio_input w d' [])) = true ->
        dict_contains d' "audio" = false).
Proof.
  intros w d audio_data Ha _.
  split; [|split; [|split; [|split]]].
  - intros t. apply resolve_from_audio. exact Ha.
  - intros b ->. rewrite (resolve_from_audio w d _ [] Ha). reflexivity.
  - intros s b -> Hdec. rewrite (resolve_from_audio w d _ [] Ha).
    unfold from_audio. rewrite Hdec. reflexivity.
  - rewrite (resolve_from_audio w d _ [] Ha). reflexivity.
  - intros d' Hdl. unfold dict_contains.
    destruct (dict_lookup d' "audio") as [v|] eqn:Hv; [|reflexivity].
    rewrite (resolve_from_audio w d' v [] Hv) in Hdl. discriminate Hdl.
Qed.

Lemma audio_takes_precedence_witness :
  process_audio_input Mock.download_404
    [("audio_url", PStr "https://example.com/audio.mp3"); ("audio", PStr "aGVsbG8=")] []
  = (inr [x68; x65; x6c; x6c; x6f], []).
Proof.
  destruct (audio_takes_precedence Mock.download_404
              [("audio_url", PStr "https://example.com/audio.mp3");
               ("audio", PStr "aGVsbG8=")]
              (PStr "aGVsbG8=") eq_refl eq_refl) as [Hfrom _].
  exact (Hfrom []).
Defined.

(** C9: for every byte sequence [b], the resolver's decode step applied to
    the standard base64 encoding of [b] yields exactly [b]: the decoder
    inverts the encoder, and the resolver returns the decoded bytes as they
    are, without any call outside the process. *)
Theorem decode_round_trip :
  forall (w : world) (b : list byte),
  b64decode (b64encode b) = inr b
  /\ (forall d t, process_audio_input w (("audio", PStr (b64encode b)) :: d) t
                  = (inr b, t)).
Proof.
  intros w b. split.
  - apply Base64Facts.b64decode_b64encode.
  - intros d t.
    rewrite (resolve_from_audio w _ (PStr (b64encode b)) t) by reflexivity.
    unfold from_audio. rewrite Base64Facts.b64decode_b64encode. reflexivity.
Qed.

(** C10: when the value under [audio] is neither a [str] nor [bytes], the
    handler returns the error envelope with the message
    "Audio data must be base64 string or bytes", and calls nothing outside
    the process. *)
Theorem wrong_audio_type_rejected :
  forall (w : world) (job d : pydict) (audio_data : pyval),
  job_input_of job d ->
  dict_lookup d "audio" = Some audio_data ->
  type_name audio_data <> "str" ->
  type_name audio_data <> "bytes" ->
  run_handler w job =
    (inr (error_envelope "Audio data must be base64 string or bytes"), []).
Proof.
  intros w job d v Hjob Ha Hs Hb.
  rewrite (run_handler_dict w job d Hjob).
  rewrite (resolve_from_audio w d v [] Ha).
  destruct v; try reflexivity.
  - exfalso. apply Hs. reflexivity.
  - exfalso. apply Hb. reflexivity.
Qed.

Lemma wrong_audio_type_rejected_witness :
  run_handler Mock.backend_ok
    (Mock.job_with [("audio", PList [PInt 1; PInt 2]); ("audio_url", PStr "https://example.com/audio.mp3")]) =
    (inr (PDict [("status", PStr "error");
                 ("error", PStr "Audio data must be base64 string or bytes")]),
     []).
Proof.
  apply (wrong_audio_type_rejected Mock.backend_ok
           (Mock.job_with [("audio", PList [PInt 1; PInt 2]);
                           ("audio_url", PStr "https://example.com/audio.mp3")])
           [("audio", PList [PInt 1; PInt 2]);
            ("audio_url", PStr "https://example.com/audio.mp3")]
           (PList [PInt 1; PInt 2]));
    [reflexivity | reflexivity | discriminate | discriminate].
Defined.

(** ** Further properties of the handler *)

(** *** Reading the job *)

(** A job whose [input] is not a mapping (a string, a list, [None]...) is
    answered with the error envelope that carries the [AttributeError] of
    [job_input.keys()]; nothing outside the process is called. *)
Theorem non_mapping_input_rejected :
  forall (w : world) (job : pydict) (v : pyval),
  dict_lookup job "input" = Some v ->
  type_name v <> "dict" ->
  run_handler w job =
    (inr (error_envelope ("'" ++ type_name v ++ "' object has no attribute 'keys'")),
     []).
Proof.
  intros w job v Hin Hty.
  rewrite run_handler_stages.
  rewrite (dict_get_lookup job "input" v (PDict []) Hin).
  destruct v; try reflexivity.
  exfalso. apply Hty. reflexivity.
Qed.

Lemma non_mapping_input_rejected_witness :
  run_handler Mock.backend_ok [("input", PNone)] =
    (inr (error_envelope "'NoneType' object has no attribute 'keys'"), []).
Proof.
  apply (non_mapping_input_rejected Mock.backend_ok [("input", PNone)] PNone);
    [reflexivity | discriminate].
Defined.

(** A job without the [input] key is handled as a job with an empty input:
    the missing-input error envelope, whatever other keys the job has. *)
Theorem absent_input_is_empty_input :
  forall (w : world) (job : pydict),
  dict_contains job "input" = false ->
  run_handler w job = (inr (error_envelope missing_input_message), [])
  /\ run_handler w job = run_handler w [("input", PDict [])].
Proof.
  intros w job Hno.
  assert (Hjob : job_input_of job []).
  { unfold job_input_of, dict_get. unfold dict_contains in Hno.
    destruct (dict_lookup job "input"); [discriminate|reflexivity]. }
  rewrite (run_handler_dict w job [] Hjob).
  split; reflexivity.
Qed.

Lemma absent_input_is_empty_input_witness :
  run_handler Mock.backend_ok [("id", PStr "job-1"); ("audio", PStr "aGVsbG8=")] =
    (inr (error_envelope missing_input_message), []).
Proof.
  apply (absent_input_is_empty_input Mock.backend_ok
           [("id", PStr "job-1"); ("audio", PStr "aGVsbG8=")]).
  reflexivity.
Defined.

(** A key of the job input outside the five the handler reads (the
    documented [model] among them) changes nothing: the same answer and the
    same calls with or without it. *)
Theorem unread_key_ignored :
  forall (w : world) (d : pydict) (k : string) (v : pyval),
  ~ In k read_keys ->
  run_handler w [("input", PDict ((k, v) :: d))] =
  run_handler w [("input", PDict d)].
Proof.
  intros w d k v Hk.
  assert (Hne : forall k', In k' read_keys -> (k =? k') = false).
  { intros k' Hin. apply String.eqb_neq. intros ->. exact (Hk Hin). }
  assert (Hlook : forall k', In k' read_keys ->
            dict_lookup ((k, v) :: d) k' = dict_lookup d k').
  { intros k' Hin. cbn [dict_lookup]. rewrite (Hne k' Hin). reflexivity. }
  rewrite (run_handler_dict w [("input", PDict ((k, v) :: d))] ((k, v) :: d) eq_refl).
  rewrite (run_handler_dict w [("input", PDict d)] d eq_refl).
  assert (Hres : process_audio_input w ((k, v) :: d) [] = process_audio_input w d []).
  { unfold process_audio_input, dict_contains, dict_get.
    rewrite !Hlook by (cbn; tauto). reflexivity. }
  rewrite Hres. unfold dict_get.
  rewrite !Hlook by (cbn; tauto). reflexivity.
Qed.

Lemma unread_key_ignored_witness :
  run_handler Mock.backend_ok
    [("input", PDict [("model", PStr "large-v3"); ("audio", PStr "aGVsbG8=")])] =
  run_handler Mock.backend_ok [("input", PDict [("audio", PStr "aGVsbG8=")])].
Proof.
  apply (unread_key_ignored Mock.backend_ok [("audio", PStr "aGVsbG8=")]
           "model" (PStr "large-v3")).
  cbn. intros [H|[H|[H|[H|[H|[]]]]]]; discriminate H.
Defined.

(** *** The remote path *)

Lemma handler_remote_success (w : world) (job d : pydict) (b : list byte)
    (t : list event) (u : string) (r : response) (v : pyval) :
  job_input_of job d ->
  process_audio_input w d [] = (inr b, t) ->
  getenv w "WHISPER_SERVICE_URL" = Some u ->
  (u =? "") = false ->
  client_post w 300 (backend_request w d b) = inr r ->
  is_success r = true ->
  json r = inr v ->
  run_handler w job =
    (inr (success_envelope v), (t ++ [EvPost 300 (backend_request w d b)])%list).
Proof.
  intros Hjob Hres Hu Hne Hpost Hs Hjson.
  destruct (init_external w u Hu Hne) as [Hext _].
  rewrite (run_handler_dict w job d Hjob). rewrite Hres.
  unfold transcribe_audio. rewrite Hext.
  unfold backend_request in *.
  rewrite (call_whisper_success w _ b _ _ _ r v t Hpost Hs Hjson). reflexivity.
Qed.

(** Audio given as raw bytes is forwarded as it is, without any decoding,
    even when the bytes spell base64: with a backend configured and
    answering, the file part of the POST is exactly the bytes of the job. *)
Theorem raw_bytes_forwarded :
  forall (w : world) (job d : pydict) (b : list byte) (u : string)
         (r : response) (v : pyval),
  job_input_of job d ->
  dict_lookup d "audio" = Some (PBytes b) ->
  getenv w "WHISPER_SERVICE_URL" = Some u ->
  (u =? "") = false ->
  client_post w 300 (backend_request w d b) = inr r ->
  is_success r = true ->
  json r = inr v ->
  (forall t, process_audio_input w d t = (inr b, t))
  /\ run_handler w job =
       (inr (success_envelope v), [EvPost 300 (backend_request w d b)])
  /\ post_files (backend_request w d b) = [("audio", ("audio.wav", b, "audio/wav"))].
Proof.
  intros w job d b u r v Hjob Ha Hu Hne Hpost Hs Hjson.
  assert (Hres : forall t, process_audio_input w d t = (inr b, t)).
  { intros t. rewrite (resolve_from_audio w d _ t Ha). reflexivity. }
  split; [exact Hres|]. split; [|reflexivity].
  exact (handler_remote_success w job d b [] u r v Hjob (Hres []) Hu Hne Hpost Hs Hjson).
Qed.

Lemma raw_bytes_forwarded_witness :
  run_handler Mock.backend_ok
    (Mock.job_with [("audio", PBytes [x59; x51; x3d; x3d])]) =
    (inr (success_envelope Mock.hello),
     [EvPost 300
        (mkPost "http://whisper:9000/transcribe"
           [("audio", ("audio.wav", [x59; x51; x3d; x3d], "audio/wav"))]
           [("task", PStr "transcribe"); ("return_timestamps", PBool true)]
           [])]).
Proof.
  apply (raw_bytes_forwarded Mock.backend_ok
           (Mock.job_with [("audio", PBytes [x59; x51; x3d; x3d])])
           [("audio", PBytes [x59; x51; x3d; x3d])]
           [x59; x51; x3d; x3d] Mock.backend_url
           (mkResponse 200 [] "" (inr Mock.hello)) Mock.hello);
    reflexivity.
Defined.

(** Audio given by URL: when the GET answers with a 2xx status, the body of
    the answer is the audio, and with a backend configured and answering the
    handler makes exactly two calls, the GET and then the POST whose file
    part is that body, and returns the success envelope. *)
Theorem downloaded_audio_forwarded :
  forall (w : world) (job d : pydict) (url : pyval) (got : response)
         (u : string) (r : response) (v : pyval),
  job_input_of job d ->
  dict_contains d "audio" = false ->
  dict_lookup d "audio_url" = Some url ->
  client_get w 60 url = inr got ->
  is_success got = true ->
  getenv w "WHISPER_SERVICE_URL" = Some u ->
  (u =? "") = false ->
  client_post w 300 (backend_request w d (content got)) = inr r ->
  is_success r = true ->
  json r = inr v ->
  process_audio_input w d [] = (inr (content got), [EvGet 60 url])
  /\ run_handler w job =
       (inr (success_envelope v),
        [EvGet 60 url; EvPost 300 (backend_request w d (content got))])
  /\ post_files (backend_request w d (content got)) =
       [("audio", ("audio.wav", content got, "audio/wav"))].
Proof.
  intros w job d url got u r v Hjob Ha Hurl Hget Hok Hu Hne Hpost Hs Hjson.
  assert (Hres : process_audio_input w d [] = (inr (content got), [EvGet 60 url])).
  { rewrite (resolve_from_url w d url [] Ha Hurl).
    unfold download_audio, raise_for_status. unfold_eff.
    rewrite Hget, Hok. reflexivity. }
  split; [exact Hres|]. split; [|reflexivity].
  exact (handler_remote_success w job d _ _ u r v Hjob Hres Hu Hne Hpost Hs Hjson).
Qed.

Lemma downloaded_audio_forwarded_witness :
  run_handler
    (Mock.mock (Some Mock.backend_url)
       (Mock.answer 200 [x52; x49; x46; x46] "" (inl (mkExn ValueError "not JSON")))
       (Mock.answer 200 [] "" (inr Mock.hello)) None)
    (Mock.job_with [("audio_url", PStr "https://example.com/audio.wav")]) =
    (inr (success_envelope Mock.hello),
     [EvGet 60 (PStr "https://example.com/audio.wav");
      EvPost 300
        (mkPost "http://whisper:9000/transcribe"
           [("audio", ("audio.wav", [x52; x49; x46; x46], "audio/wav"))]
           [("task", PStr "transcribe"); ("return_timestamps", PBool true)]
           [])]).
Proof.
  apply (downloaded_audio_forwarded
           (Mock.mock (Some Mock.backend_url)
              (Mock.answer 200 [x52; x49; x46; x46] ""
                 (inl (mkExn ValueError "not JSON")))
              (Mock.answer 200 [] "" (inr Mock.hello)) None)
           (Mock.job_with [("audio_url", PStr "https://example.com/audio.wav")])
           [("audio_url", PStr "https://example.com/audio.wav")]
           (PStr "https://example.com/audio.wav")
           (mkResponse 200 [x52; x49; x46; x46] "" (inl (mkExn ValueError "not JSON")))
           Mock.backend_url
           (mkResponse 200 [] "" (inr Mock.hello)) Mock.hello);
    reflexivity.
Defined.

(** A download that fails with an exception outside [httpx.HTTPError] (a
    URL that is not a string, a malformed URL) is not wrapped: the error
    envelope carries the exception's own message, without the
    "Failed to download audio from URL: " prefix, and no transcription call
    follows. *)
Theorem other_download_error_unwrapped :
  forall (w : world) (job d : pydict) (url : pyval) (e : exn),
  job_input_of job d ->
  dict_contains d "audio" = false ->
  dict_lookup d "audio_url" = Some url ->
  client_get w 60 url = inl e ->
  is_HTTPError e = false ->
  run_handler w job = (inr (error_envelope (exn_str e)), [EvGet 60 url]).
Proof.
  intros w job d url e Hjob Ha Hurl Hget He.
  rewrite (run_handler_dict w job d Hjob).
  rewrite (resolve_from_url w d url [] Ha Hurl).
  unfold download_audio, raise_for_status. unfold_eff.
  rewrite Hget, He. reflexivity.
Qed.

Lemma other_download_error_unwrapped_witness :
  run_handler
    (Mock.mock (Some Mock.backend_url)
       (inl (mkExn OtherError "Invalid type for url.  Expected str or httpx.URL, got <class 'int'>: 7"))
       (Mock.answer 200 [] "" (inr Mock.hello)) None)
    (Mock.job_with [("audio_url", PInt 7)]) =
    (inr (error_envelope
            "Invalid type for url.  Expected str or httpx.URL, got <class 'int'>: 7"),
     [EvGet 60 (PInt 7)]).
Proof.
  apply (other_download_error_unwrapped
           (Mock.mock (Some Mock.backend_url)
              (inl (mkExn OtherError "Invalid type for url.  Expected str or httpx.URL, got <class 'int'>: 7"))
              (Mock.answer 200 [] "" (inr Mock.hello)) None)
           (Mock.job_with [("audio_url", PInt 7)])
           [("audio_url", PInt 7)] (PInt 7)
           (mkExn OtherError "Invalid type for url.  Expected str or httpx.URL, got <class 'int'>: 7"));
    reflexivity.
Defined.

(** A 2xx answer of the backend whose body does not parse as JSON is not a
    backend failure in the sense of the wrapper: the parser's exception
    (not an [httpx.HTTPError]) reaches the entry point as it is, and the
    error envelope carries its message without the
    "Failed to call Whisper service: " prefix. *)
Theorem unparsable_body_unwrapped :
  forall (w : world) (job d : pydict) (b : list byte) (t : list event)
         (u : string) (r : response) (e : exn),
  job_input_of job d ->
  process_audio_input w d [] = (inr b, t) ->
  getenv w "WHISPER_SERVICE_URL" = Some u ->
  (u =? "") = false ->
  client_post w 300 (backend_request w d b) = inr r ->
  is_success r = true ->
  json r = inl e ->
  is_HTTPError e = false ->
  run_handler w job =
    (inr (error_envelope (exn_str e)),
     (t ++ [EvPost 300 (backend_request w d b)])%list).
Proof.
  intros w job d b t u r e Hjob Hres Hu Hne Hpost Hs Hjson He.
  destruct (init_external w u Hu Hne) as [Hext _].
  rewrite (run_handler_dict w job d Hjob). rewrite Hres.
  unfold transcribe_audio. rewrite Hext.
  unfold backend_request in Hpost.
  unfold _call_whisper_service, raise_for_status. unfold_eff.
  rewrite Hpost, Hs, Hjson, He. reflexivity.
Qed.

Lemma unparsable_body_unwrapped_witness :
  run_handler
    (Mock.mock (Some Mock.backend_url) Mock.unreachable
       (Mock.answer 200 [x4f; x4b] ""
          (inl (mkExn ValueError "Expecting value: line 1 column 1 (char 0)")))
       None)
    (Mock.job_with [("audio", PStr "aGVsbG8=")]) =
    (inr (error_envelope "Expecting value: line 1 column 1 (char 0)"),
     [EvPost 300
        (mkPost "http://whisper:9000/transcribe"
           [("audio", ("audio.wav", [x68; x65; x6c; x6c; x6f], "audio/wav"))]
           [("task", PStr "transcribe"); ("return_timestamps", PBool true)]
           [])]).
Proof.
  apply (unparsable_body_unwrapped
           (Mock.mock (Some Mock.backend_url) Mock.unreachable
              (Mock.answer 200 [x4f; x4b] ""
                 (inl (mkExn ValueError "Expecting value: line 1 column 1 (char 0)")))
              None)
           (Mock.job_with [("audio", PStr "aGVsbG8=")])
           [("audio", PStr "aGVsbG8=")]
           [x68; x65; x6c; x6c; x6f] [] Mock.backend_url
           (mkResponse 200 [x4f; x4b] ""
              (inl (mkExn ValueError "Expecting value: line 1 column 1 (char 0)")))
           (mkExn ValueError "Expecting value: line 1 column 1 (char 0)"));
    reflexivity.
Defined.

(** *** The local path *)

(** The local path once whisper is imported, the model loaded and the
    temporary file written: the model's answer mapped by [local_result],
    overridden by a failure of the file removal, and any [ImportError]
    replaced by the model-unavailable message. *)
Lemma local_whisper_run (w : world) (self : WhisperTranscriber)
    (b : list byte) (language task rt : pyval) (t : list event) (p : string) :
  import_whisper_torch w = None ->
  load_model w (local_model_name w) (local_device w) = None ->
  tmp_write w b = inr p ->
  _use_local_whisper w self b language task rt t =
  (let body :=
     match model_transcribe w (local_model_name w) (local_device w) p b
             language task rt with
     | inl e => inl e
     | inr result => local_result result language
     end in
   let r :=
     if path_exists w p
     then match unlink w p with Some e => inl e | None => body end
     else body in
   match r with
   | inl e =>
       if is_ImportError e
       then inl (mkExn PlainException model_unavailable_message)
       else inl e
   | inr v => inr v
   end,
   (t ++ [EvImport; EvLoadModel (local_model_name w) (local_device w);
          EvTmpWrite b; EvTranscribe p language task rt]
      ++ (if path_exists w p then [EvUnlink p] else []))%list).
Proof.
  intros Himp Hload Htmp.
  unfold _use_local_whisper, dict_item, local_result. unfold_eff.
  fold (local_model_name w). fold (local_device w).
  rewrite Himp, Hload, Htmp.
  destruct (model_transcribe w _ _ p b language task rt) as [e|result];
    [|destruct (dict_lookup result "text") as [text|]];
    (destruct (path_exists w p); [destruct (unlink w p) as [e'|]|]);
    cbn [is_ImportError exn_type];
    repeat match goal with
           | |- context [is_ImportError ?x] => destruct (is_ImportError x)
           end;
    rewrite <- ?app_assoc; cbn [app]; rewrite ?app_nil_r; reflexivity.
Qed.

Lemma handler_local (w : world) (job d : pydict) (b : list byte)
    (t : list event) :
  job_input_of job d ->
  process_audio_input w d [] = (inr b, t) ->
  env_truthy (getenv w "WHISPER_SERVICE_URL") = false ->
  run_handler w job =
  match _use_local_whisper w (WhisperTranscriber_init w) b
          (dict_get d "language" PNone)
          (dict_get d "task" (PStr "transcribe"))
          (dict_get d "return_timestamps" (PBool true)) t with
  | (inl e, t2) => (inr (error_envelope (exn_str e)), t2)
  | (inr r, t2) => (inr (success_envelope r), t2)
  end.
Proof.
  intros Hjob Hres Hno.
  rewrite (run_handler_dict w job d Hjob). rewrite Hres.
  unfold transcribe_audio.
  replace (use_external_service (WhisperTranscriber_init w)) with false
    by (symmetry; exact Hno).
  reflexivity.
Qed.

(** The temporary file is cleaned up on every exit of the local path: once
    it is written, whatever the model does (an answer, an answer without
    text, an exception), the removal of the file, if it still exists, is the
    last step, and the handler still returns an envelope. *)
Theorem temp_file_removed_on_every_exit :
  forall (w : world) (job d : pydict) (b : list byte) (t : list event)
         (p : string),
  job_input_of job d ->
  process_audio_input w d [] = (inr b, t) ->
  env_truthy (getenv w "WHISPER_SERVICE_URL") = false ->
  import_whisper_torch w = None ->
  load_model w (local_model_name w) (local_device w) = None ->
  tmp_write w b = inr p ->
  exists v,
    run_handler w job =
      (inr v,
       (t ++ [EvImport; EvLoadModel (local_model_name w) (local_device w);
              EvTmpWrite b;
              EvTranscribe p (dict_get d "language" PNone)
                (dict_get d "task" (PStr "transcribe"))
                (dict_get d "return_timestamps" (PBool true))]
          ++ (if path_exists w p then [EvUnlink p] else []))%list).
Proof.
  intros w job d b t p Hjob Hres Hno Himp Hload Htmp.
  rewrite (handler_local w job d b t Hjob Hres Hno).
  rewrite (local_whisper_run w _ b _ _ _ t p Himp Hload Htmp).
  cbv zeta.
  match goal with
  | |- exists v, (match ?r with inl _ => _ | inr _ => _ end) = _ =>
      destruct r as [e|v]
  end; eexists; reflexivity.
Qed.

Lemma temp_file_removed_on_every_exit_witness :
  exists v,
    run_handler
      (MockLocal.local (inl (mkExn OtherError "CUDA out of memory")) None)
      (Mock.job_with [("audio", PStr "aGVsbG8=")]) =
      (inr v,
       [EvImport; EvLoadModel "base" "cpu"; EvTmpWrite [x68; x65; x6c; x6c; x6f];
        EvTranscribe MockLocal.tmp_path PNone (PStr "transcribe") (PBool true);
        EvUnlink MockLocal.tmp_path]).
Proof.
  apply (temp_file_removed_on_every_exit
           (MockLocal.local (inl (mkExn OtherError "CUDA out of memory")) None)
           (Mock.job_with [("audio", PStr "aGVsbG8=")])
           [("audio", PStr "aGVsbG8=")]
           [x68; x65; x6c; x6c; x6f] [] MockLocal.tmp_path);
    reflexivity.
Defined.

(** With no backend URL configured and whisper working, the handler returns
    the success envelope around a mapping built from the model's answer:
    its [text], its [segments] or an empty list when it has none, and its
    [language] or, when it has none, the language the job asked for. *)
Theorem local_success_result :
  forall (w : world) (job d : pydict) (b : list byte) (t : list event)
         (p : string) (result : pydict) (text : pyval),
  job_input_of job d ->
  process_audio_input w d [] = (inr b, t) ->
  env_truthy (getenv w "WHISPER_SERVICE_URL") = false ->
  import_whisper_torch w = None ->
  load_model w (local_model_name w) (local_device w) = None ->
  tmp_write w b = inr p ->
  model_transcribe w (local_model_name w) (local_device w) p b
    (dict_get d "language" PNone) (dict_get d "task" (PStr "transcribe"))
    (dict_get d "return_timestamps" (PBool true)) = inr result ->
  dict_lookup result "text" = Some text ->
  unlink w p = None ->
  fst (run_handler w job) =
    inr (success_envelope
           (PDict [("text", text);
                   ("segments",
                    match dict_lookup result "segments" with
                    | Some segments => segments
                    | None => PList []
                    end);
                   ("language",
                    match dict_lookup result "language" with
                    | Some detected => detected
                    | None => dict_get d "language" PNone
                    end)])).
Proof.
  intros w job d b t p result text Hjob Hres Hno Himp Hload Htmp Hrun Htext Hrm.
  rewrite (handler_local w job d b t Hjob Hres Hno).
  rewrite (local_whisper_run w _ b _ _ _ t p Himp Hload Htmp).
  rewrite Hrun, Hrm. unfold local_result, dict_get. rewrite Htext.
  cbv zeta. destruct (path_exists w p); reflexivity.
Qed.

Lemma local_success_result_witness :
  fst (run_handler
         (MockLocal.local (inr [("text", PStr " hello")]) None)
         (Mock.job_with [("audio", PStr "aGVsbG8="); ("language", PStr "en")])) =
    inr (success_envelope
           (PDict [("text", PStr " hello"); ("segments", PList []);
                   ("language", PStr "en")])).
Proof.
  apply (local_success_result
           (MockLocal.local (inr [("text", PStr " hello")]) None)
           (Mock.job_with [("audio", PStr "aGVsbG8="); ("language", PStr "en")])
           [("audio", PStr "aGVsbG8="); ("language", PStr "en")]
           [x68; x65; x6c; x6c; x6f] [] MockLocal.tmp_path
           [("text", PStr " hello")] (PStr " hello"));
    reflexivity.
Defined.

(** An [ImportError] raised after the import itself, by the model while it
    transcribes (a dependency it imports late), is reported like a missing
    installation: the error envelope with the model-unavailable message,
    after the temporary file has been removed. *)
Theorem late_import_error_reported_as_missing :
  forall (w : world) (job d : pydict) (b : list byte) (t : list event)
         (p : string) (e : exn),
  job_input_of job d ->
  process_audio_input w d [] = (inr b, t) ->
  env_truthy (getenv w "WHISPER_SERVICE_URL") = false ->
  import_whisper_torch w = None ->
  load_model w (local_model_name w) (local_device w) = None ->
  tmp_write w b = inr p ->
  model_transcribe w (local_model_name w) (local_device w) p b
    (dict_get d "language" PNone) (dict_get d "task" (PStr "transcribe"))
    (dict_get d "return_timestamps" (PBool true)) = inl e ->
  is_ImportError e = true ->
  path_exists w p = true ->
  unlink w p = None ->
  run_handler w job =
    (inr (error_envelope model_unavailable_message),
     (t ++ [EvImport; EvLoadModel (local_model_name w) (local_device w);
            EvTmpWrite b;
            EvTranscribe p (dict_get d "language" PNone)
              (dict_get d "task" (PStr "transcribe"))
              (dict_get d "return_timestamps" (PBool true));
            EvUnlink p])%list).
Proof.
  intros w job d b t p e Hjob Hres Hno Himp Hload Htmp Hrun He Hex Hrm.
  rewrite (handler_local w job d b t Hjob Hres Hno).
  rewrite (local_whisper_run w _ b _ _ _ t p Himp Hload Htmp).
  rewrite Hrun, Hex, Hrm. cbv beta iota zeta. rewrite He. reflexivity.
Qed.

Lemma late_import_error_reported_as_missing_witness :
  run_handler
    (MockLocal.local (inl (mkExn ImportError "No module named 'triton'")) None)
    (Mock.job_with [("audio", PStr "aGVsbG8=")]) =
    (inr (error_envelope model_unavailable_message),
     [EvImport; EvLoadModel "base" "cpu"; EvTmpWrite [x68; x65; x6c; x6c; x6f];
      EvTranscribe MockLocal.tmp_path PNone (PStr "transcribe") (PBool true);
      EvUnlink MockLocal.tmp_path]).
Proof.
  apply (late_import_error_reported_as_missing
           (MockLocal.local (inl (mkExn ImportError "No module named 'triton'")) None)
           (Mock.job_with [("audio", PStr "aGVsbG8=")])
           [("audio", PStr "aGVsbG8=")]
           [x68; x65; x6c; x6c; x6f] [] MockLocal.tmp_path
           (mkExn ImportError "No module named 'triton'"));
    reflexivity.
Defined.

(** When removing the temporary file fails, that failure is what the job
    reports: the error envelope carries the removal's message whatever the
    model answered, a finished transcription included. *)
Theorem failed_removal_overrides_result :
  forall (w : world) (job d : pydict) (b : list byte) (t : list event)
         (p : string) (e : exn),
  job_input_of job d ->
  process_audio_input w d [] = (inr b, t) ->
  env_truthy (getenv w "WHISPER_SERVICE_URL") = false ->
  import_whisper_torch w = None ->
  load_model w (local_model_name w) (local_device w) = None ->
  tmp_write w b = inr p ->
  path_exists w p = true ->
  unlink w p = Some e ->
  is_ImportError e = false ->
  fst (run_handler w job) = inr (error_envelope (exn_str e)).
Proof.
  intros w job d b t p e Hjob Hres Hno Himp Hload Htmp Hex Hrm He.
  rewrite (handler_local w job d b t Hjob Hres Hno).
  rewrite (local_whisper_run w _ b _ _ _ t p Himp Hload Htmp).
  rewrite Hex, Hrm. cbv beta iota zeta. rewrite He. reflexivity.
Qed.

Lemma failed_removal_overrides_result_witness :
  fst (run_handler
         (MockLocal.local (inr [("text", PStr " hello")])
            (Some (mkExn OtherError "[Errno 13] Permission denied: '/tmp/tmpk3v9.wav'")))
         (Mock.job_with [("audio", PStr "aGVsbG8=")])) =
    inr (error_envelope "[Errno 13] Permission denied: '/tmp/tmpk3v9.wav'").
Proof.
  apply (failed_removal_overrides_result
           (MockLocal.local (inr [("text", PStr " hello")])
              (Some (mkExn OtherError "[Errno 13] Permission denied: '/tmp/tmpk3v9.wav'")))
           (Mock.job_with [("audio", PStr "aGVsbG8=")])
           [("audio", PStr "aGVsbG8=")]
           [x68; x65; x6c; x6c; x6f] [] MockLocal.tmp_path
           (mkExn OtherError "[Errno 13] Permission denied: '/tmp/tmpk3v9.wav'"));
    reflexivity.
Defined.

(** *** The calls of one invocation *)

Lemma resolver_trace (w : world) (d : pydict) (t : list event) :
  exists gets,
    snd (process_audio_input w d t) = (t ++ gets)%list
    /\ (List.length gets <= 1)%nat
    /\ forallb is_download gets = true.
Proof.
  unfold process_audio_input.
  destruct (dict_contains d "audio").
  - exists []. rewrite app_nil_r. split; [|split; [cbn; lia|reflexivity]].
    destruct (dict_get d "audio" PNone); try reflexivity.
    unfold_eff. unfold is_Exception. destruct (b64decode s); reflexivity.
  - destruct (dict_contains d "audio_url").
    + exists [EvGet 60 (dict_get d "audio_url" PNone)].
      split; [|split; [cbn; lia|reflexivity]].
      unfold download_audio, raise_for_status. unfold_eff.
      destruct (client_get w 60 _) as [e|r];
        [destruct (is_HTTPError e)|destruct (is_success r)]; reflexivity.
    + exists []. rewrite app_nil_r. split; [|split; [cbn; lia|reflexivity]].
      reflexivity.
Qed.

Lemma remote_trace (w : world) (self : WhisperTranscriber) (b : list byte)
    (language task rt : pyval) (t : list event) :
  snd (_call_whisper_service w self b language task rt t) =
  (t ++ [EvPost 300 (whisper_request self b language task rt)])%list.
Proof.
  unfold _call_whisper_service, raise_for_status. unfold_eff.
  destruct (client_post w 300 _) as [e|r]; [destruct (is_HTTPError e); reflexivity|].
  destruct (is_success r); [|reflexivity].
  destruct (json r) as [e|v]; [destruct (is_HTTPError e)|]; reflexivity.
Qed.

Lemma local_trace (w : world) (self : WhisperTranscriber) (b : list byte)
    (language task rt : pyval) (t : list event) :
  exists steps,
    snd (_use_local_whisper w self b language task rt t) = (t ++ steps)%list
    /\ forallb is_local steps = true.
Proof.
  unfold _use_local_whisper, dict_item. unfold_eff.
  fold (local_model_name w). fold (local_device w).
  destruct (import_whisper_torch w) as [e|].
  { exists [EvImport]. split; [|reflexivity].
    destruct (is_ImportError e); reflexivity. }
  destruct (load_model w _ _) as [e|].
  { exists [EvImport; EvLoadModel (local_model_name w) (local_device w)].
    split; [|reflexivity].
    rewrite <- app_assoc. destruct (is_ImportError e); reflexivity. }
  destruct (tmp_write w b) as [e|p].
  { exists [EvImport; EvLoadModel (local_model_name w) (local_device w);
            EvTmpWrite b].
    split; [|reflexivity].
    rewrite <- !app_assoc. destruct (is_ImportError e); reflexivity. }
  exists ([EvImport; EvLoadModel (local_model_name w) (local_device w);
           EvTmpWrite b; EvTranscribe p language task rt]
            ++ (if path_exists w p then [EvUnlink p] else []))%list.
  split; [|destruct (path_exists w p); reflexivity].
  destruct (model_transcribe w _ _ p b language task rt) as [e|result];
    [|destruct (dict_lookup result "text") as [text|]];
    (destruct (path_exists w p); [destruct (unlink w p) as [e'|]|]);
    cbn [is_ImportError exn_type];
    repeat match goal with
           | |- context [is_ImportError ?x] => destruct (is_ImportError x)
           end;
    cbn [snd]; rewrite <- ?app_assoc; cbn [app]; rewrite ?app_nil_r; reflexivity.
Qed.

(** One invocation makes at most one download, before anything else, and
    then follows one path only: with a backend URL configured at most one
    POST and no step of the local model (no fallback when the backend
    fails), without one only steps of the local model and no POST.  Nothing
    is retried. *)
Theorem one_download_then_one_path :
  forall (w : world) (job : pydict),
  exists gets calls,
    snd (run_handler w job) = (gets ++ calls)%list
    /\ (List.length gets <= 1)%nat
    /\ forallb is_download gets = true
    /\ (if env_truthy (getenv w "WHISPER_SERVICE_URL")
        then (List.length calls <= 1)%nat /\ forallb is_post calls = true
        else forallb is_local calls = true).
Proof.
  intros w job. rewrite run_handler_stages.
  destruct (keys_of _ []) as [[e|d] t0] eqn:Hk.
  { assert (t0 = []) as ->.
    { unfold keys_of in Hk. destruct (dict_get job "input" (PDict []));
        cbv in Hk; congruence. }
    exists [], []. cbn.
    destruct (env_truthy _); repeat split; auto. }
  assert (t0 = []) as ->.
  { unfold keys_of in Hk. destruct (dict_get job "input" (PDict []));
      cbv in Hk; congruence. }
  destruct (resolver_trace w d []) as (gets & Hgets & Hlen & Hdl).
  cbn [app] in Hgets.
  destruct (process_audio_input w d []) as [[e|b] t1]; cbn [snd] in Hgets; subst t1.
  { exists gets, []. rewrite app_nil_r. cbn [snd].
    destruct (env_truthy _); repeat split; auto. }
  unfold transcribe_audio.
  change (use_external_service (WhisperTranscriber_init w))
    with (env_truthy (getenv w "WHISPER_SERVICE_URL")).
  destruct (env_truthy (getenv w "WHISPER_SERVICE_URL")).
  - pose proof (remote_trace w (WhisperTranscriber_init w) b
                  (dict_get d "language" PNone)
                  (dict_get d "task" (PStr "transcribe"))
                  (dict_get d "return_timestamps" (PBool true)) gets) as Hpost.
    destruct (_call_whisper_service _ _ _ _ _ _ gets) as [[e|r] t2];
      cbn [snd] in Hpost; subst t2;
      (eexists gets, _; cbn [snd]; split; [reflexivity|];
       repeat split; auto).
  - destruct (local_trace w (WhisperTranscriber_init w) b
                (dict_get d "language" PNone)
                (dict_get d "task" (PStr "transcribe"))
                (dict_get d "return_timestamps" (PBool true)) gets)
      as (steps & Hsteps & Hloc).
    destruct (_use_local_whisper _ _ _ _ _ _ gets) as [[e|r] t2];
      cbn [snd] in Hsteps; subst t2;
      (exists gets, steps; cbn [snd]; repeat split; auto).
Qed.

(** *** What the decode step accepts and rejects *)

Lemma to_N_byte_of_ascii (a : ascii) : Byte.to_N (byte_of_ascii a) = N_of_ascii a.
Proof. apply Byte.to_of_N. symmetry. apply byte_of_ascii_via_N. Qed.

Lemma not_pad_byte (a : ascii) :
  (a =? "=")%char = false ->
  (Byte.to_N (byte_of_ascii a) =? BASE64_PAD)%N = false.
Proof.
  intros Hne. rewrite to_N_byte_of_ascii. apply N.eqb_neq. intros H.
  apply Ascii.eqb_neq in Hne. apply Hne.
  rewrite <- (ascii_N_embedding a), H. reflexivity.
Qed.

Lemma a2b_loop_junk (a : ascii) (rest : list byte) (q lc p : N) (bin : list byte) :
  is_junk a = true ->
  a2b_loop (byte_of_ascii a :: rest) q lc p bin = a2b_loop rest q lc p bin.
Proof.
  unfold is_junk. intros H.
  apply andb_prop in H. destruct H as [H Hal].
  apply andb_prop in H. destruct H as [_ Hpad].
  apply negb_true_iff in Hpad. apply negb_true_iff in Hal.
  cbn [a2b_loop]. rewrite (not_pad_byte a Hpad).
  unfold table_a2b_base64. rewrite ascii_of_byte_of_ascii. cbv zeta.
  unfold in_alphabet in Hal. apply N.ltb_ge in Hal.
  replace (64 <=? find_char a table_b2a_base64 0)%N with true
    by (symmetry; apply N.leb_le; exact Hal).
  reflexivity.
Qed.

Lemma a2b_loop_insert_junk (a : ascii) (l1 l2 : list byte) :
  is_junk a = true ->
  forall q lc p bin,
  a2b_loop (l1 ++ byte_of_ascii a :: l2) q lc p bin =
  a2b_loop (l1 ++ l2) q lc p bin.
Proof.
  intros Ha. induction l1 as [|c l1 IH]; intros q lc p bin.
  - cbn [app]. apply a2b_loop_junk. exact Ha.
  - cbn [app a2b_loop]. cbv zeta.
    destruct (Byte.to_N c =? BASE64_PAD)%N.
    + destruct (2 <=? q)%N; [|apply IH].
      destruct (4 <=? q + (p + 1))%N; [reflexivity|apply IH].
    + destruct (64 <=? table_a2b_base64 c)%N; [apply IH|].
      destruct q as [|[[qq|qq|]|[qq|qq|]|]]; apply IH.
Qed.

Lemma encode_ascii_app (s1 s2 : string) :
  encode_ascii (s1 ++ s2) =
  match encode_ascii s1, encode_ascii s2 with
  | Some d1, Some d2 => Some (d1 ++ d2)%list
  | _, _ => None
  end.
Proof.
  induction s1 as [|c s1 IH]; cbn [append encode_ascii].
  - destruct (encode_ascii s2); reflexivity.
  - destruct (N_of_ascii c <? 128)%N; [|reflexivity].
    rewrite IH. destruct (encode_ascii s1), (encode_ascii s2); reflexivity.
Qed.

(** Characters outside the alphabet are not data: a line break, a blank or
    any other ASCII character that is neither in the alphabet nor the pad
    can be inserted anywhere in the audio string without changing what the
    decode step returns or raises, hence what the resolver does.  Base64
    wrapped over several lines is accepted; the two characters [-] and [_]
    of the URL-safe variant are dropped, not decoded. *)
Theorem junk_characters_skipped :
  forall (c : ascii) (s1 s2 : string),
  is_junk c = true ->
  b64decode (s1 ++ String c s2) = b64decode (s1 ++ s2)
  /\ (forall w d t,
        process_audio_input w (("audio", PStr (s1 ++ String c s2)) :: d) t =
        process_audio_input w (("audio", PStr (s1 ++ s2)) :: d) t).
Proof.
  intros c s1 s2 Hc.
  assert (Hdec : b64decode (s1 ++ String c s2) = b64decode (s1 ++ s2)).
  { unfold b64decode. rewrite !encode_ascii_app. cbn [encode_ascii].
    assert (Hascii : (N_of_ascii c <? 128)%N = true).
    { unfold is_junk, is_ascii in Hc.
      apply andb_prop in Hc. destruct Hc as [Hc _].
      apply andb_prop in Hc. apply Hc. }
    rewrite Hascii.
    destruct (encode_ascii s1) as [d1|]; [|reflexivity].
    destruct (encode_ascii s2) as [d2|]; [|reflexivity].
    unfold a2b_base64. rewrite (a2b_loop_insert_junk c d1 d2 Hc). reflexivity. }
  split; [exact Hdec|].
  intros w d t.
  rewrite (resolve_from_audio w _ (PStr (s1 ++ String c s2)) t) by reflexivity.
  rewrite (resolve_from_audio w _ (PStr (s1 ++ s2)) t) by reflexivity.
  unfold from_audio. rewrite Hdec. reflexivity.
Qed.

Lemma junk_characters_skipped_witness :
  b64decode ("aGVs" ++ String "010"%char "bG8=") = b64decode ("aGVs" ++ "bG8=").
Proof.
  apply (junk_characters_skipped "010"%char "aGVs" "bG8="). reflexivity.
Defined.

Lemma dataless_decodes_empty (s : string) :
  string_forallb is_dataless s = true ->
  exists data,
    encode_ascii s = Some data
    /\ forall lc p bin, a2b_loop data 0 lc p bin = inr bin.
Proof.
  induction s as [|c s IH]; cbn [string_forallb]; intros H.
  - exists []. split; reflexivity.
  - apply andb_prop in H. destruct H as [Hc Hs].
    destruct (IH Hs) as (data & Hdata & Hloop).
    unfold is_dataless in Hc. apply andb_prop in Hc. destruct Hc as [Hascii Hal].
    exists (byte_of_ascii c :: data). split.
    + cbn [encode_ascii]. unfold is_ascii in Hascii. rewrite Hascii, Hdata.
      reflexivity.
    + intros lc p bin. destruct (c =? "=")%char eqn:Hpad.
      * apply Ascii.eqb_eq in Hpad. subst c. cbn. apply Hloop.
      * rewrite a2b_loop_junk; [apply Hloop|].
        unfold is_junk. rewrite Hascii, Hpad, Hal. reflexivity.
Qed.

(** An audio string without a single character of the alphabet (the empty
    string, blanks, pads, punctuation) is not rejected: it decodes to no
    bytes at all, and the handler goes on to transcribe empty audio. *)
Theorem dataless_audio_is_empty_audio :
  forall (w : world) (d : pydict) (s : string) (t : list event),
  dict_lookup d "audio" = Some (PStr s) ->
  string_forallb is_dataless s = true ->
  b64decode s = inr [] /\ process_audio_input w d t = (inr [], t).
Proof.
  intros w d s t Ha Hs.
  destruct (dataless_decodes_empty s Hs) as (data & Hdata & Hloop).
  assert (Hdec : b64decode s = inr []).
  { unfold b64decode, a2b_base64. rewrite Hdata, Hloop. reflexivity. }
  split; [exact Hdec|].
  rewrite (resolve_from_audio w d _ t Ha). unfold from_audio.
  rewrite Hdec. reflexivity.
Qed.

Lemma dataless_audio_is_empty_audio_witness :
  process_audio_input Mock.backend_ok [("audio", PStr " = ?!")] [] = (inr [], []).
Proof.
  apply (dataless_audio_is_empty_audio Mock.backend_ok
           [("audio", PStr " = ?!")] " = ?!" []); reflexivity.
Defined.

Lemma encode_ascii_non_ascii (s : string) :
  string_forallb is_ascii s = false -> encode_ascii s = None.
Proof.
  induction s as [|c s IH]; cbn [string_forallb encode_ascii]; intros H.
  - discriminate H.
  - unfold is_ascii in H at 1. destruct (N_of_ascii c <? 128)%N; [|reflexivity].
    cbn [andb] in H. rewrite (IH H). reflexivity.
Qed.

(** An audio string with a character outside ASCII anywhere in it is
    rejected before any decoding: the error envelope says that the string
    argument should contain only ASCII characters, and nothing is called. *)
Theorem non_ascii_audio_rejected :
  forall (w : world) (job d : pydict) (s : string),
  job_input_of job d ->
  dict_lookup d "audio" = Some (PStr s) ->
  string_forallb is_ascii s = false ->
  run_handler w job =
    (inr (error_envelope
            "Invalid base64 audio data: string argument should contain only ASCII characters"),
     []).
Proof.
  intros w job d s Hjob Ha Hs.
  rewrite (run_handler_dict w job d Hjob).
  rewrite (resolve_from_audio w d _ [] Ha).
  unfold from_audio, b64decode. rewrite (encode_ascii_non_ascii s Hs).
  reflexivity.
Qed.

Lemma non_ascii_audio_rejected_witness :
  run_handler Mock.backend_ok
    (Mock.job_with [("audio", PStr (String (ascii_of_N 233) "GVsbG8="))]) =
    (inr (error_envelope
            "Invalid base64 audio data: string argument should contain only ASCII characters"),
     []).
Proof.
  apply (non_ascii_audio_rejected Mock.backend_ok
           (Mock.job_with [("audio", PStr (String (ascii_of_N 233) "GVsbG8="))])
           [("audio", PStr (String (ascii_of_N 233) "GVsbG8="))]
           (String (ascii_of_N 233) "GVsbG8="));
    reflexivity.
Defined.

Lemma b2a_not_pad (v : N) : (v < 64)%N -> (b2a v =? "=")%char = false.
Proof.
  intros Hv. pose proof (Base64Facts.char_ok_all v Hv) as Hc.
  unfold char_ok in Hc.
  repeat (apply andb_prop in Hc; destruct Hc as [Hc ?]).
  match goal with H : negb _ = true |- _ => apply negb_true_iff in H;
    rewrite to_N_byte_of_ascii in H; apply N.eqb_neq in H; rename H into Hne end.
  apply Ascii.eqb_neq. intros Heq. apply Hne. rewrite Heq. reflexivity.
Qed.

Lemma remove_pads_b2a (v : N) (s : string) :
  (v < 64)%N -> remove_pads (String (b2a v) s) = String (b2a v) (remove_pads s).
Proof. intros Hv. cbn [remove_pads]. rewrite (b2a_not_pad v Hv). reflexivity. Qed.

Lemma unpadded_loop (b : list byte) :
  (List.length b mod 3 <> 0)%nat ->
  forall lc p bin,
  exists data,
    encode_ascii (remove_pads (b64encode b)) = Some data
    /\ a2b_loop data 0 lc p bin = inl "Incorrect padding".
Proof.
  induction b as [|x|x y|x y z rest IH] using Base64Facts.list_ind3;
    intros Hlen lc p bin.
  - exfalso. apply Hlen. reflexivity.
  - destruct (Base64Facts.sextet_bounds x x00) as (B0 & B1 & _ & _).
    change (Byte.to_N x00) with 0%N in B1.
    eexists. split.
    + cbn [b64encode]. cbv zeta. rewrite Base64Facts.last_sextet1.
      rewrite !remove_pads_b2a by assumption.
      apply Base64Facts.encode_ascii_char; [exact B0|].
      apply Base64Facts.encode_ascii_char; [exact B1|].
      reflexivity.
    + rewrite (Base64Facts.a2b_loop_data _ _ _ _ _ _ B0).
      rewrite (Base64Facts.a2b_loop_data _ _ _ _ _ _ B1).
      reflexivity.
  - destruct (Base64Facts.sextet_bounds x y) as (B0 & B1 & _ & _).
    destruct (Base64Facts.sextet_bounds y x00) as (_ & _ & B2 & _).
    change (Byte.to_N x00) with 0%N in B2.
    eexists. split.
    + cbn [b64encode]. cbv zeta. rewrite Base64Facts.last_sextet2.
      rewrite !remove_pads_b2a by assumption.
      apply Base64Facts.encode_ascii_char; [exact B0|].
      apply Base64Facts.encode_ascii_char; [exact B1|].
      apply Base64Facts.encode_ascii_char; [exact B2|].
      reflexivity.
    + rewrite (Base64Facts.a2b_loop_data _ _ _ _ _ _ B0).
      rewrite (Base64Facts.a2b_loop_data _ _ _ _ _ _ B1).
      rewrite (Base64Facts.a2b_loop_data _ _ _ _ _ _ B2).
      reflexivity.
  - destruct (Base64Facts.sextet_bounds x y) as (B0 & B1 & _ & _).
    destruct (Base64Facts.sextet_bounds y z) as (_ & _ & B2 & _).
    destruct (Base64Facts.sextet_bounds z z) as (_ & _ & _ & B3).
    assert (Hrest : (List.length rest mod 3 <> 0)%nat).
    { intros H0. apply Hlen. cbn [List.length].
      replace (S (S (S (List.length rest)))) with (List.length rest + 1 * 3)%nat by lia.
      rewrite Nat.Div0.mod_add. exact H0. }
    destruct (IH Hrest 0%N 0%N
                (bin ++ [Base64.u8 (N.lor (N.shiftl (N.shiftr (Byte.to_N x) 2) 2)
                                      (N.shiftr (sextet1 (Byte.to_N x) (Byte.to_N y)) 4))]
                     ++ [Base64.u8 (N.lor (N.shiftl (N.land (sextet1 (Byte.to_N x) (Byte.to_N y)) 15) 4)
                                      (N.shiftr (sextet2 (Byte.to_N y) (Byte.to_N z)) 2))]
                     ++ [Base64.u8 (N.lor (N.shiftl (N.land (sextet2 (Byte.to_N y) (Byte.to_N z)) 3) 6)
                                      (N.land (Byte.to_N z) 63))])%list)
      as (data & Hdata & Hloop).
    eexists. split.
    + cbn [b64encode]. cbv zeta.
      rewrite !remove_pads_b2a by assumption.
      apply Base64Facts.encode_ascii_char; [exact B0|].
      apply Base64Facts.encode_ascii_char; [exact B1|].
      apply Base64Facts.encode_ascii_char; [exact B2|].
      apply Base64Facts.encode_ascii_char; [exact B3|].
      exact Hdata.
    + rewrite (Base64Facts.a2b_loop_data _ _ _ _ _ _ B0).
      rewrite (Base64Facts.a2b_loop_data _ _ _ _ _ _ B1).
      rewrite (Base64Facts.a2b_loop_data _ _ _ _ _ _ B2).
      rewrite (Base64Facts.a2b_loop_data _ _ _ _ _ _ B3).
      cbv iota beta.
      repeat rewrite <- app_assoc. repeat rewrite <- app_assoc in Hloop.
      exact Hloop.
Qed.

(** Base64 sent without its padding is rejected: for audio whose length is
    not a multiple of three, the standard encoding with the pads removed
    makes the handler answer with the error envelope
    "Invalid base64 audio data: Incorrect padding", and nothing is called. *)
Theorem unpadded_base64_rejected :
  forall (w : world) (job d : pydict) (b : list byte),
  job_input_of job d ->
  dict_lookup d "audio" = Some (PStr (remove_pads (b64encode b))) ->
  (List.length b mod 3 <> 0)%nat ->
  run_handler w job =
    (inr (error_envelope "Invalid base64 audio data: Incorrect padding"), []).
Proof.
  intros w job d b Hjob Ha Hlen.
  destruct (unpadded_loop b Hlen 0%N 0%N []) as (data & Hdata & Hloop).
  rewrite (run_handler_dict w job d Hjob).
  rewrite (resolve_from_audio w d _ [] Ha).
  unfold from_audio, b64decode, a2b_base64. rewrite Hdata, Hloop. reflexivity.
Qed.

Lemma unpadded_base64_rejected_witness :
  run_handler Mock.backend_ok (Mock.job_with [("audio", PStr "aGVsbG8")]) =
    (inr (error_envelope "Invalid base64 audio data: Incorrect padding"), []).
Proof.
  apply (unpadded_base64_rejected Mock.backend_ok
           (Mock.job_with [("audio", PStr "aGVsbG8")])
           [("audio", PStr "aGVsbG8")] [x68; x65; x6c; x6c; x6f]);
    [reflexivity | reflexivity | cbn; discriminate].
Defined.

Lemma encode_ascii_length (s : string) (data : list byte) :
  encode_ascii s = Some data -> List.length data = String.length s.
Proof.
  revert data. induction s as [|c s IH]; cbn [encode_ascii String.length]; intros data H.
  - injection H as <-. reflexivity.
  - destruct (N_of_ascii c <? 128)%N; [|discriminate H].
    destruct (encode_ascii s) as [ds|]; [|discriminate H].
    injection H as <-. cbn [List.length]. rewrite (IH ds eq_refl). reflexivity.
Qed.

(** The decoder's bound: whatever the registers, the bytes written never
    exceed three for four characters consumed. *)
Lemma a2b_loop_length (data : list byte) :
  forall (q lc p : N) (bin out : list byte) (k : nat),
  (q < 4)%N ->
  (4 * List.length bin + quad_slack q <= 3 * k)%nat ->
  a2b_loop data q lc p bin = inr out ->
  (4 * List.length out <= 3 * (k + List.length data))%nat.
Proof.
  induction data as [|c rest IH]; intros q lc p bin out k Hq Hinv H.
  - cbn [a2b_loop] in H.
    destruct (q =? 0)%N.
    + injection H as <-. cbn [List.length]. lia.
    + destruct (q =? 1)%N; discriminate H.
  - cbn [a2b_loop List.length] in H |- *. cbv zeta in H.
    assert (Hstep : forall q' lc' p' bin',
              (q' < 4)%N ->
              (4 * List.length bin' + quad_slack q' <= 3 * S k)%nat ->
              a2b_loop rest q' lc' p' bin' = inr out ->
              (4 * List.length out <= 3 * (k + S (List.length rest)))%nat).
    { intros q' lc' p' bin' Hq' Hinv' H'.
      pose proof (IH q' lc' p' bin' out (S k) Hq' Hinv' H'). lia. }
    destruct (Byte.to_N c =? BASE64_PAD)%N.
    { destruct (2 <=? q)%N.
      - destruct (4 <=? q + (p + 1))%N.
        + injection H as <-. lia.
        + eapply Hstep; [exact Hq| |exact H]. lia.
      - eapply Hstep; [exact Hq| |exact H]. lia. }
    destruct (64 <=? table_a2b_base64 c)%N.
    { eapply Hstep; [exact Hq| |exact H]. lia. }
    assert (Hcases : q = 0%N \/ q = 1%N \/ q = 2%N \/ q = 3%N) by lia.
    destruct Hcases as [-> | [-> | [-> | ->]]]; cbv iota beta in H;
      cbn [quad_slack] in Hinv;
      (eapply Hstep; [| |exact H]; [lia|]);
      rewrite ?length_app; cbn [List.length quad_slack]; lia.
Qed.

(** The audio a string resolves to is never longer than three quarters of
    the string: three bytes at most for four characters. *)
Theorem decoded_audio_length_bound :
  forall (w : world) (d : pydict) (s : string) (b : list byte)
         (t t' : list event),
  dict_lookup d "audio" = Some (PStr s) ->
  process_audio_input w d t = (inr b, t') ->
  (4 * List.length b <= 3 * String.length s)%nat.
Proof.
  intros w d s b t t' Ha Hres.
  rewrite (resolve_from_audio w d _ t Ha) in Hres.
  unfold from_audio, b64decode in Hres.
  destruct (encode_ascii s) as [data|] eqn:Hdata; [|discriminate Hres].
  unfold a2b_base64 in Hres.
  destruct (a2b_loop data 0 0 0 []) as [msg|out] eqn:Hloop; [discriminate Hres|].
  injection Hres as -> _.
  pose proof (a2b_loop_length data 0%N 0%N 0%N [] b 0%nat) as Hb.
  rewrite (encode_ascii_length s data Hdata) in Hb.
  apply Hb; [lia | cbn; lia | exact Hloop].
Qed.

Lemma decoded_audio_length_bound_witness :
  (4 * List.length [x68; x65; x6c; x6c; x6f] <= 3 * String.length "aGVsbG8=")%nat.
Proof.
  apply (decoded_audio_length_bound Mock.backend_ok
           [("audio", PStr "aGVsbG8=")] "aGVsbG8=" [x68; x65; x6c; x6c; x6f] [] []);
    reflexivity.
Defined.

(** *** The request sent to the backend *)

(** The form fields of the POST: [task] and [return_timestamps] are always
    sent, with the job's values or, when the job has none, "transcribe" and
    [True]; [language] is sent only when the job's value is truthy (so not
    for a missing, [None] or empty language); no other field is sent.  The
    Authorization header is sent only with a non-empty [WHISPER_API_TOKEN],
    as "Bearer " followed by the token. *)
Theorem request_fields_and_header :
  forall (w : world) (d : pydict) (b : list byte),
  dict_lookup (post_data (backend_request w d b)) "task"
    = Some (match dict_lookup d "task" with Some v => v | None => PStr "transcribe" end)
  /\ dict_lookup (post_data (backend_request w d b)) "return_timestamps"
    = Some (match dict_lookup d "return_timestamps" with
            | Some v => v
            | None => PBool true
            end)
  /\ dict_lookup (post_data (backend_request w d b)) "language"
    = match dict_lookup d "language" with
      | Some v => if truthy v then Some v else None
      | None => None
      end
  /\ (forall k, dict_contains (post_data (backend_request w d b)) k = true ->
                In k ["task"; "return_timestamps"; "language"])
  /\ post_headers (backend_request w d b)
    = match getenv w "WHISPER_API_TOKEN" with
      | Some token =>
          if token =? "" then [] else [("Authorization", "Bearer " ++ token)]
      | None => []
      end.
Proof.
  intros w d b.
  unfold backend_request, whisper_request, dict_get.
  cbn [post_data post_headers].
  repeat split.
  - destruct (dict_lookup d "language") as [v|]; [destruct (truthy v)|];
      reflexivity.
  - intros k Hk. unfold dict_contains in Hk.
    assert (Hcases : forall l : pydict,
              (l = [] \/ exists v, l = [("language", v)]) ->
              match dict_lookup
                      ([("task", match dict_lookup d "task" with
                                 | Some v => v | None => PStr "transcribe" end);
                        ("return_timestamps",
                         match dict_lookup d "return_timestamps" with
                         | Some v => v | None => PBool true end)] ++ l)%list k with
              | Some _ => true | None => false end = true ->
              In k ["task"; "return_timestamps"; "language"]).
    { intros l Hl. cbn [app dict_lookup].
      destruct ("task" =? k) eqn:E1; [apply String.eqb_eq in E1; cbn; auto|].
      destruct ("return_timestamps" =? k) eqn:E2;
        [apply String.eqb_eq in E2; cbn; auto|].
      destruct Hl as [-> | [v ->]]; cbn [dict_lookup]; [discriminate|].
      destruct ("language" =? k) eqn:E3;
        [apply String.eqb_eq in E3; cbn; auto|discriminate]. }
    eapply Hcases; [|exact Hk].
    destruct (dict_lookup d "language") as [v|]; cbn [truthy];
      [destruct (truthy v); [right; eexists; reflexivity|left; reflexivity]
      |left; reflexivity].
  - unfold WhisperTranscriber_init. cbn [whisper_api_token].
    destruct (getenv w "WHISPER_API_TOKEN") as [token|]; [|reflexivity].
    cbn [env_truthy env_format]. destruct (token =? ""); reflexivity.
Qed.

(** *** The jobs of the local test script *)


(** The file job of the test script: for every file content, with a backend
    configured and answering, the handler makes one call, the POST whose
    file part is exactly the content of the file and whose fields ask for a
    transcription, in English, with timestamps; it downloads nothing. *)
Theorem test_file_job_sends_the_file :
  forall (w : world) (audio_bytes : list byte) (u : string) (r : response)
         (v : pyval),
  getenv w "WHISPER_SERVICE_URL" = Some u ->
  (u =? "") = false ->
  client_post w 300
    (mkPost (u ++ "/transcribe")
       [("audio", ("audio.wav", audio_bytes, "audio/wav"))]
       [("task", PStr "transcribe"); ("return_timestamps", PBool true);
        ("language", PStr "en")]
       (match getenv w "WHISPER_API_TOKEN" with
        | Some token =>
            if token =? "" then [] else [("Authorization", "Bearer " ++ token)]
        | None => []
        end)) = inr r ->
  is_success r = true ->
  json r = inr v ->
  exists req,
    run_handler w (TestHandler.file_job audio_bytes) =
      (inr (success_envelope v), [EvPost 300 req])
    /\ post_url req = u ++ "/transcribe"
    /\ post_files req = [("audio", ("audio.wav", audio_bytes, "audio/wav"))]
    /\ post_data req =
         [("task", PStr "transcribe"); ("return_timestamps", PBool true);
          ("language", PStr "en")].
Proof.
  intros w audio_bytes u r v Hu Hne Hpost Hs Hjson.
  set (d := [("audio", PStr (b64encode audio_bytes)); ("language", PStr "en");
             ("return_timestamps", PBool true)]).
  assert (Hreq : backend_request w d audio_bytes =
                 mkPost (u ++ "/transcribe")
                   [("audio", ("audio.wav", audio_bytes, "audio/wav"))]
                   [("task", PStr "transcribe"); ("return_timestamps", PBool true);
                    ("language", PStr "en")]
                   (match getenv w "WHISPER_API_TOKEN" with
                    | Some token =>
                        if token =? "" then []
                        else [("Authorization", "Bearer " ++ token)]
                    | None => []
                    end)).
  { unfold backend_request, whisper_request, WhisperTranscriber_init.
    cbn [whisper_service_url whisper_api_token].
    rewrite Hu. cbn [env_format].
    destruct (getenv w "WHISPER_API_TOKEN") as [token|]; [|reflexivity].
    cbn [env_truthy env_format]. destruct (token =? ""); reflexivity. }
  exists (backend_request w d audio_bytes).
  split; [|rewrite Hreq; repeat split].
  apply (handler_remote_success w (TestHandler.file_job audio_bytes) d
           audio_bytes [] u r v); try assumption.
  - reflexivity.
  - rewrite (resolve_from_audio w d (PStr (b64encode audio_bytes)) []) by reflexivity.
    unfold from_audio. rewrite Base64Facts.b64decode_b64encode. reflexivity.
  - rewrite Hreq. exact Hpost.
Qed.

Lemma test_file_job_sends_the_file_witness :
  exists req,
    run_handler Mock.backend_ok (TestHandler.file_job [x52; x49; x46; x46]) =
      (inr (success_envelope Mock.hello), [EvPost 300 req])
    /\ post_url req = "http://whisper:9000/transcribe"
    /\ post_files req = [("audio", ("audio.wav", [x52; x49; x46; x46], "audio/wav"))]
    /\ post_data req =
         [("task", PStr "transcribe"); ("return_timestamps", PBool true);
          ("language", PStr "en")].
Proof.
  apply (test_file_job_sends_the_file Mock.backend_ok [x52; x49; x46; x46]
           Mock.backend_url (mkResponse 200 [] "" (inr Mock.hello)) Mock.hello);
    reflexivity.
Defined.

